(** * solarWeather: a shallow embedding of [solarWeather.py] and its properties

    The module downloads the NOAA GOES X-ray flux feed, keeps one energy band,
    turns the raw JSON records into [xrayEntry] values, cuts the trailing
    window of N hours and summarises it.  This file embeds the pure core
    (classification, record mapping, windowing, summary, alert, timestamp
    parsing) and states its properties.

    Python [float] is IEEE binary64, embedded as Rocq's primitive [float];
    text formatting of floats is computed from their exact binary value.
    Exceptions are values of [exn] carried in a sum type. *)

From Stdlib Require Import ZArith Floats Ascii String List Lia Sorting.Sorted.
From Stdlib Require Import Permutation.
From stdpp Require Import base option strings list gmap.

Set Warnings "-inexact-float".
Local Open Scope string_scope.
Local Open Scope Z_scope.

(** ** Exceptions and fallible results *)

Inductive exn : Type :=
  | ValueError (msg : string)
  | TypeError (msg : string)
  | KeyError (key : string)
  | OverflowError (msg : string).

Definition result (A : Type) : Type := exn + A.

Definition ok {A} (x : A) : result A := inr x.
Definition raise {A} (e : exn) : result A := inl e.

Definition rbind {A B} (m : result A) (k : A -> result B) : result B :=
  match m with
  | inl e => inl e
  | inr x => k x
  end.

Notation "'let*' x ':=' m 'in' k" := (rbind m (fun x => k))
  (at level 10, x name, m at level 100, k at level 200).

Definition succeeded {A} (m : result A) : bool :=
  match m with inr _ => true | inl _ => false end.

(** ** Characters and decimal digits *)

Definition digit_char (d : Z) : ascii := ascii_of_N (48 + Z.to_N d).

Definition char_digit (c : ascii) : option Z :=
  let n := Z.of_N (N_of_ascii c) in
  if (48 <=? n) && (n <=? 57) then Some (n - 48) else None.

(** [n] written with exactly [w] decimal digits, zero filled on the left. *)
Fixpoint zfill_chars (w : nat) (n : Z) : list ascii :=
  match w with
  | O => []
  | S w' => zfill_chars w' (n / 10) ++ [digit_char (n mod 10)]
  end.

Definition zfill (w : nat) (n : Z) : string := string_of_list_ascii (zfill_chars w n).

Fixpoint decimal_go (fuel : nat) (n : Z) (acc : string) : string :=
  match fuel with
  | O => acc
  | S f =>
      let acc' := String (digit_char (n mod 10)) acc in
      if n <? 10 then acc' else decimal_go f (n / 10) acc'
  end.

(** [str(n)] for a non-negative integer. *)
Definition decimal (n : Z) : string :=
  decimal_go (S (Z.to_nat (Z.log2 n))) n "".

Fixpoint repeat_char (c : ascii) (n : nat) : string :=
  match n with
  | O => ""
  | S n' => String c (repeat_char c n')
  end.

(** ** Binary64 values and their text *)

(** Quotient [n / d] rounded to the nearest integer, ties to even ([d > 0]). *)
Definition div_half_even (n d : Z) : Z :=
  let q := n / d in
  let r := n mod d in
  match Z.compare (2 * r) d with
  | Lt => q
  | Gt => q + 1
  | Eq => if Z.even q then q else q + 1
  end.

(** [m * 2^e * 10^k] rounded to the nearest integer, ties to even. *)
Definition scale_round (m : positive) (e k : Z) : Z :=
  let num := Z.pos m * (if 0 <=? e then 2 ^ e else 1) * (if 0 <=? k then 10 ^ k else 1) in
  let den := (if 0 <=? e then 1 else 2 ^ (- e)) * (if 0 <=? k then 1 else 10 ^ (- k)) in
  div_half_even num den.

(** Python's [format(x, ".2f")]: the exact value of [x], correctly rounded
    (ties to even) to two decimals. *)
Definition format_2f (x : float) : string :=
  match Prim2SF x with
  | S754_nan => "nan"
  | S754_infinity s => if s then "-inf" else "inf"
  | S754_zero s => if s then "-0.00" else "0.00"
  | S754_finite s m e =>
      let n := scale_round m e 2 in
      (if s then "-" else "") +:+ decimal (n / 100) +:+ "." +:+ zfill 2 (n mod 100)
  end.

(** The binary64 nearest to [m * 10^k] ([m >= 0]), as [float(str)] computes it. *)
Definition float_of_decimal (m k : Z) : float :=
  match m with
  | Z.pos p =>
      if 0 <=? k then SF2Prim (binary_normalize prec emax (Z.pos p * 10 ^ k) 0 false)
      else SF2Prim (SFdiv prec emax (S754_finite false p 0)
                      (S754_finite false (Z.to_pos (10 ^ (- k))) 0))
  | _ => 0%float
  end.

(** *** [repr] of a float: the shortest decimal that reads back as the same binary64 *)

(** Whether [10^q <= num / den]. *)
Definition ge_pow10 (num den q : Z) : bool :=
  if 0 <=? q then den * 10 ^ q <=? num else den <=? num * 10 ^ (- q).

Fixpoint dec_exponent_go (fuel : nat) (num den q : Z) : Z :=
  match fuel with
  | O => q
  | S f => if ge_pow10 num den (q + 1) then dec_exponent_go f num den (q + 1) else q
  end.

(** The [q] with [10^q <= num/den < 10^(q+1)], for a positive binary64 value. *)
Definition dec_exponent (num den : Z) : Z := dec_exponent_go 640 num den (-324).

(** Tries 1, 2, ... significant digits; with [n] digits the two decimals
    around the value are candidates, the nearer one first. *)
Fixpoint shortest_go (fuel : nat) (x : float) (num den q n : Z) : Z * Z :=
  match fuel with
  | O => (0, 0)
  | S f =>
      let k := q - n + 1 in
      let sn := if k <=? 0 then num * 10 ^ (- k) else num in
      let sd := if k <=? 0 then den else den * 10 ^ k in
      let near := div_half_even sn sd in
      let low := sn / sd in
      let other := if near =? low then low + 1 else low in
      if (float_of_decimal near k =? x)%float then (near, k)
      else if (float_of_decimal other k =? x)%float then (other, k)
      else shortest_go f x num den q (n + 1)
  end.

Fixpoint strip_zeros (fuel : nat) (d k : Z) : Z * Z :=
  match fuel with
  | O => (d, k)
  | S f => if (0 <? d) && (d mod 10 =? 0) then strip_zeros f (d / 10) (k + 1) else (d, k)
  end.

(** Layout of [repr]: scientific notation when the decimal point position
    [decpt] is at most -4 or above 16, positional notation otherwise. *)
Definition repr_layout (digits : string) (decpt : Z) : string :=
  let nd := Z.of_nat (String.length digits) in
  if (decpt <=? -4) || (16 <? decpt) then
    let ex := decpt - 1 in
    let mant :=
      match digits with
      | String c "" => String c ""
      | String c rest => String c ("." +:+ rest)
      | "" => ""
      end in
    let exs := decimal (Z.abs ex) in
    mant +:+ "e" +:+ (if ex <? 0 then "-" else "+")
         +:+ (if Z.abs ex <? 10 then "0" +:+ exs else exs)
  else if decpt <=? 0 then
    "0." +:+ repeat_char "0" (Z.to_nat (- decpt)) +:+ digits
  else if decpt <? nd then
    substring 0 (Z.to_nat decpt) digits +:+ "."
      +:+ substring (Z.to_nat decpt) (Z.to_nat (nd - decpt)) digits
  else
    digits +:+ repeat_char "0" (Z.to_nat (decpt - nd)) +:+ ".0".

(** Python's [repr(x)], which [str(x)] and [f"{x}"] also use. *)
Definition float_repr (x : float) : string :=
  match Prim2SF x with
  | S754_nan => "nan"
  | S754_infinity s => if s then "-inf" else "inf"
  | S754_zero s => if s then "-0.0" else "0.0"
  | S754_finite s m e =>
      let num := if 0 <=? e then Z.pos m * 2 ^ e else Z.pos m in
      let den := if 0 <=? e then 1 else 2 ^ (- e) in
      let q := dec_exponent num den in
      let '(d0, k0) := shortest_go 17 (abs x) num den q 1 in
      let '(d, k) := strip_zeros 20 d0 k0 in
      let digits := decimal d in
      (if s then "-" else "") +:+ repr_layout digits (Z.of_nat (String.length digits) + k)
  end.

(** *** [float(s)] for a string *)

(** White space that [float] drops around the number: the ASCII white space
    and, of the code points up to 255, NEXT LINE and NO-BREAK SPACE.  The
    separators 28 to 31 are white space for [str.strip] but not here. *)
Definition is_space (c : ascii) : bool :=
  let n := N_of_ascii c in
  ((9 <=? n) && (n <=? 13))%N || (n =? 32)%N || (n =? 133)%N || (n =? 160)%N.

Definition is_digit (c : ascii) : bool :=
  match char_digit c with Some _ => true | None => false end.

Definition lower (c : ascii) : ascii :=
  let n := N_of_ascii c in
  if ((65 <=? n) && (n <=? 90))%N then ascii_of_N (n + 32) else c.

Fixpoint lstrip (cs : list ascii) : list ascii :=
  match cs with
  | c :: rest => if is_space c then lstrip rest else cs
  | [] => []
  end.

Definition strip (cs : list ascii) : list ascii :=
  rev (lstrip (rev (lstrip cs))).

(** Underscores may only sit between two digits; returns the text without them. *)
Fixpoint drop_underscores (prev_digit : bool) (cs : list ascii) : option (list ascii) :=
  match cs with
  | [] => Some []
  | c :: rest =>
      if Ascii.eqb c "_" then
        match rest with
        | d :: _ => if prev_digit && is_digit d then drop_underscores false rest else None
        | [] => None
        end
      else cons c <$> drop_underscores (is_digit c) rest
  end.

(** Leading run of digits: their value, their number, and the rest. *)
Fixpoint take_digits (cs : list ascii) (acc : Z) (n : Z) : Z * Z * list ascii :=
  match cs with
  | c :: rest =>
      match char_digit c with
      | Some d => take_digits rest (10 * acc + d) (n + 1)
      | None => (acc, n, cs)
      end
  | [] => (acc, n, [])
  end.

Definition take_sign (cs : list ascii) : bool * list ascii :=
  match cs with
  | c :: rest =>
      if Ascii.eqb c "-" then (true, rest)
      else if Ascii.eqb c "+" then (false, rest)
      else (false, cs)
  | [] => (false, [])
  end.

(** Optional exponent part [e[+-]digits]; [None] when present but malformed. *)
Definition take_exponent (cs : list ascii) : option Z :=
  match cs with
  | [] => Some 0
  | c :: rest =>
      if Ascii.eqb (lower c) "e" then
        let '(neg, rest1) := take_sign rest in
        let '(v, n, rest2) := take_digits rest1 0 0 in
        match rest2 with
        | [] => if 0 <? n then Some (if neg then - v else v) else None
        | _ => None
        end
      else None
  end.

Definition float_of_string (s : string) : option float :=
  let cs := strip (list_ascii_of_string s) in
  let '(neg, body) := take_sign cs in
  let sgn (x : float) := if neg then (- x)%float else x in
  let word := string_of_list_ascii (map lower body) in
  if (word =? "inf")%string || (word =? "infinity")%string then Some (sgn infinity)
  else if (word =? "nan")%string then Some nan
  else
    match drop_underscores false body with
    | None => None
    | Some ds =>
        let '(ip, ni, rest1) := take_digits ds 0 0 in
        let '(m, nf, rest2) :=
          match rest1 with
          | c :: r => if Ascii.eqb c "." then take_digits r ip 0 else (ip, 0, rest1)
          | [] => (ip, 0, [])
          end in
        if 0 <? ni + nf then
          match take_exponent rest2 with
          | Some ex => Some (sgn (float_of_decimal m (ex - nf)))
          | None => None
          end
        else None
    end.

(** [float(n)] for an integer: nearest binary64, or [OverflowError]. *)
Definition float_of_int (n : Z) : result float :=
  match binary_normalize prec emax n 0 false with
  | S754_infinity _ => raise (OverflowError "int too large to convert to float")
  | sf => ok (SF2Prim sf)
  end.

(** ** Strings as Python uses them here *)

Definition chars (s : string) : list ascii := list_ascii_of_string s.
Definition text (cs : list ascii) : string := string_of_list_ascii cs.

(** [s.endswith(suffix)] *)
Definition endswith (s suffix : string) : bool :=
  bool_decide (chars suffix `suffix_of` chars s).

(** [s[:-1]] *)
Definition drop_last (s : string) : string :=
  text (take (length (chars s) - 1)%nat (chars s)).

(** ** Calendar arithmetic of the [datetime] module (proleptic Gregorian) *)

Definition is_leap (y : Z) : bool :=
  (y mod 4 =? 0) && (negb (y mod 100 =? 0) || (y mod 400 =? 0)).

Definition days_before_year (y : Z) : Z :=
  let y1 := y - 1 in y1 * 365 + y1 / 4 - y1 / 100 + y1 / 400.

Definition DAYS_IN_MONTH (m : Z) : Z :=
  match m with
  | 2 => 28
  | 4 | 6 | 9 | 11 => 30
  | _ => 31
  end.

Definition DAYS_BEFORE_MONTH (m : Z) : Z :=
  match m with
  | 1 => 0 | 2 => 31 | 3 => 59 | 4 => 90 | 5 => 120 | 6 => 151
  | 7 => 181 | 8 => 212 | 9 => 243 | 10 => 273 | 11 => 304 | _ => 334
  end.

Definition days_in_month (y m : Z) : Z :=
  if (m =? 2) && is_leap y then 29 else DAYS_IN_MONTH m.

Definition days_before_month (y m : Z) : Z :=
  DAYS_BEFORE_MONTH m + (if (2 <? m) && is_leap y then 1 else 0).

(** Ordinal of a date, 0001-01-01 being day 1. *)
Definition ymd2ord (y m d : Z) : Z :=
  days_before_year y + days_before_month y m + d.

Definition DI400Y : Z := 146097.
Definition DI100Y : Z := 36524.
Definition DI4Y : Z := 1461.

(** Month and day of the [n]-th day (from 0) of a year: the month is
    estimated as [(n + 50) >> 5] and lowered by one when that is too large. *)
Definition month_of_yday (leapyear : bool) (n : Z) : Z * Z :=
  let month := Z.shiftr (n + 50) 5 in
  let preceding := DAYS_BEFORE_MONTH month + (if (2 <? month) && leapyear then 1 else 0) in
  let '(month, preceding) :=
    if n <? preceding
    then (month - 1,
          preceding - (DAYS_IN_MONTH (month - 1)
                       + (if (month - 1 =? 2) && leapyear then 1 else 0)))
    else (month, preceding) in
  (month, n - preceding + 1).

(** Date of an ordinal. *)
Definition ord2ymd (n : Z) : Z * Z * Z :=
  let n := n - 1 in
  let n400 := n / DI400Y in
  let n := n mod DI400Y in
  let year := n400 * 400 + 1 in
  let n100 := n / DI100Y in
  let n := n mod DI100Y in
  let n4 := n / DI4Y in
  let n := n mod DI4Y in
  let n1 := n / 365 in
  let n := n mod 365 in
  let year := year + n100 * 100 + n4 * 4 + n1 in
  if (n1 =? 4) || (n100 =? 4) then (year - 1, 12, 31)
  else
    let leapyear := (n1 =? 3) && (negb (n4 =? 24) || (n100 =? 3)) in
    let '(month, day) := month_of_yday leapyear n in
    (year, month, day).

(** ** [datetime], [timedelta] and fixed-offset time zones

    A [datetime] is held as the number of microseconds its wall-clock
    reading lies after 0001-01-01T00:00:00, together with its [tzinfo]: [None]
    for a naive value, [Some off] for a fixed UTC offset of [off] microseconds
    ([Some 0] is [timezone.utc]).  A [timedelta] is a number of microseconds. *)

Record datetime : Type := { wall : Z; tzinfo : option Z }.

Definition US_PER_SECOND : Z := 1000000.
Definition US_PER_MINUTE : Z := 60 * US_PER_SECOND.
Definition US_PER_HOUR : Z := 3600 * US_PER_SECOND.
Definition US_PER_DAY : Z := 86400 * US_PER_SECOND.

(** Ordinal of 9999-12-31 and the last representable instant. *)
Definition MAXORDINAL : Z := 3652059.
Definition MAX_WALL : Z := MAXORDINAL * US_PER_DAY - 1.

Definition in_range (w : Z) : bool := (0 <=? w) && (w <=? MAX_WALL).

(** [datetime(y, m, d, hh, mm, ss, us, tzinfo)] with its range checks. *)
Definition new_datetime (y m d hh mi ss us : Z) (tz : option Z) : result datetime :=
  if negb ((1 <=? y) && (y <=? 9999)) then raise (ValueError "year is out of range")
  else if negb ((1 <=? m) && (m <=? 12)) then raise (ValueError "month must be in 1..12")
  else if negb ((1 <=? d) && (d <=? days_in_month y m))
    then raise (ValueError "day is out of range for month")
  else if negb ((0 <=? hh) && (hh <=? 23)) then raise (ValueError "hour must be in 0..23")
  else if negb ((0 <=? mi) && (mi <=? 59)) then raise (ValueError "minute must be in 0..59")
  else if negb ((0 <=? ss) && (ss <=? 59)) then raise (ValueError "second must be in 0..59")
  else if negb ((0 <=? us) && (us <=? 999999))
    then raise (ValueError "microsecond must be in 0..999999")
  else ok {| wall := (ymd2ord y m d - 1) * US_PER_DAY + hh * US_PER_HOUR
                     + mi * US_PER_MINUTE + ss * US_PER_SECOND + us;
             tzinfo := tz |}.

(** [timezone(timedelta(microseconds=off))]: the offset must lie strictly
    within one day. *)
Definition new_timezone (off : Z) : result Z :=
  if (- US_PER_DAY <? off) && (off <? US_PER_DAY) then ok off
  else raise (ValueError "offset must be a timedelta strictly between -timedelta(hours=24) and timedelta(hours=24)").

(** [d - td] and [d + td]: wall-clock arithmetic, [OverflowError] outside
    years 1..9999. *)
Definition dt_sub (d : datetime) (td : Z) : result datetime :=
  let w := wall d - td in
  if in_range w then ok {| wall := w; tzinfo := tzinfo d |}
  else raise (OverflowError "date value out of range").

(** [d.replace(tzinfo=tz)] *)
Definition replace_tzinfo (d : datetime) (tz : option Z) : datetime :=
  {| wall := wall d; tzinfo := tz |}.

Definition utc : option Z := Some 0.

(** [d.astimezone(timezone.utc)].  A datetime already in UTC is returned as
    it is; another offset is subtracted from the wall clock.  A naive value
    would be read in the machine's local zone; [timeConvert] never passes
    one, and the model reads it as UTC. *)
Definition astimezone_utc (d : datetime) : result datetime :=
  match tzinfo d with
  | None => ok (replace_tzinfo d utc)
  | Some off =>
      if off =? 0 then ok d
      else
        let* r := dt_sub d off in
        ok (replace_tzinfo r utc)
  end.

(** Comparison of two datetimes: both naive, or both aware (then by UTC
    instant); a naive and an aware one cannot be ordered. *)
Definition dt_cmp (op : Z -> Z -> bool) (a b : datetime) : result bool :=
  match tzinfo a, tzinfo b with
  | None, None => ok (op (wall a) (wall b))
  | Some oa, Some ob => ok (op (wall a - oa) (wall b - ob))
  | _, _ => raise (TypeError "can't compare offset-naive and offset-aware datetimes")
  end.

Definition dt_le : datetime -> datetime -> result bool := dt_cmp Z.leb.
Definition dt_lt : datetime -> datetime -> result bool := dt_cmp Z.ltb.

(** *** [datetime.isoformat()] *)

Definition format_offset (tz : option Z) : list ascii :=
  match tz with
  | None => []
  | Some off =>
      let a := Z.abs off in
      let hh := a / US_PER_HOUR in
      let mm := a mod US_PER_HOUR / US_PER_MINUTE in
      let ss := a mod US_PER_MINUTE / US_PER_SECOND in
      let us := a mod US_PER_SECOND in
      chars (if off <? 0 then "-" else "+") ++ zfill_chars 2 hh ++ chars ":"
        ++ zfill_chars 2 mm
        ++ (if (ss =? 0) && (us =? 0) then []
            else chars ":" ++ zfill_chars 2 ss
                 ++ (if us =? 0 then [] else chars "." ++ zfill_chars 6 us))
  end.

(** The text of a date and time of day followed by the UTC offset. *)
Definition iso_chars (y m d hh mi ss us : Z) (tz : option Z) : list ascii :=
  zfill_chars 4 y ++ chars "-" ++ zfill_chars 2 m ++ chars "-"
    ++ zfill_chars 2 d ++ chars "T" ++ zfill_chars 2 hh ++ chars ":"
    ++ zfill_chars 2 mi ++ chars ":" ++ zfill_chars 2 ss
    ++ (if us =? 0 then [] else chars "." ++ zfill_chars 6 us)
    ++ format_offset tz.

Definition isoformat (d : datetime) : string :=
  let days := wall d / US_PER_DAY in
  let rem := wall d mod US_PER_DAY in
  let '(y, m, dd) := ord2ymd (days + 1) in
  text (iso_chars y m dd (rem / US_PER_HOUR) (rem mod US_PER_HOUR / US_PER_MINUTE)
          (rem mod US_PER_MINUTE / US_PER_SECOND) (rem mod US_PER_SECOND) (tzinfo d)).

(** *** [datetime.fromisoformat]

    The grammar is the one [isoformat] emits,
    [YYYY-MM-DD[*HH[:MM[:SS[.fff[fff]]]][+HH:MM[:SS[.ffffff]]]]], where [*] is
    any single character.  Interpreters from 3.11 on read further ISO 8601
    spellings; those are rejected here. *)

(** Exactly [w] decimal digits at the head of [cs]. *)
Fixpoint parse_digits (w : nat) (cs : list ascii) (acc : Z) : option (Z * list ascii) :=
  match w with
  | O => Some (acc, cs)
  | S w' =>
      match cs with
      | c :: rest =>
          match char_digit c with
          | Some d => parse_digits w' rest (10 * acc + d)
          | None => None
          end
      | [] => None
      end
  end.

Definition expect (c : ascii) (cs : list ascii) : option (list ascii) :=
  match cs with
  | x :: rest => if Ascii.eqb x c then Some rest else None
  | [] => None
  end.

(** Fraction of a second after the point: six digits, or three (milliseconds). *)
Definition parse_fraction (cs : list ascii) : option (Z * list ascii) :=
  match parse_digits 6 cs 0 with
  | Some r => Some r
  | None => '(ms, rest) ← parse_digits 3 cs 0; Some (ms * 1000, rest)
  end.

(** [HH[:MM[:SS[.fff[fff]]]]] and what follows it. *)
Definition parse_hh_mm_ss_ff (cs : list ascii) : option (Z * Z * Z * Z * list ascii) :=
  '(hh, r1) ← parse_digits 2 cs 0;
  match expect ":" r1 with
  | None => Some (hh, 0, 0, 0, r1)
  | Some r1' =>
      '(mi, r2) ← parse_digits 2 r1' 0;
      match expect ":" r2 with
      | None => Some (hh, mi, 0, 0, r2)
      | Some r2' =>
          '(ss, r3) ← parse_digits 2 r2' 0;
          match expect "." r3 with
          | None => Some (hh, mi, ss, 0, r3)
          | Some r3' => '(us, r4) ← parse_fraction r3'; Some (hh, mi, ss, us, r4)
          end
      end
  end.

(** The UTC offset [(+|-)HH:MM[:SS[.ffffff]]] in microseconds.  An offset of
    no whole second is read as UTC, whatever its fraction. *)
Definition parse_offset (cs : list ascii) : option Z :=
  match cs with
  | c :: tzs =>
      if Ascii.eqb c "+" || Ascii.eqb c "-" then
        let n := length tzs in
        if (n =? 5)%nat || (n =? 8)%nat || (n =? 15)%nat then
          '(th, tm, ts, tus, rest) ← parse_hh_mm_ss_ff tzs;
          match rest with
          | [] =>
              let secs := th * 3600 + tm * 60 + ts in
              if secs =? 0 then Some 0
              else
                let off := secs * US_PER_SECOND + tus in
                Some (if Ascii.eqb c "-" then - off else off)
          | _ => None
          end
        else None
      else None
  | [] => None
  end.

Definition parse_isoformat (cs : list ascii)
  : option (Z * Z * Z * (Z * Z * Z * Z) * option Z) :=
  '(y, r) ← parse_digits 4 cs 0;
  r ← expect "-" r;
  '(m, r) ← parse_digits 2 r 0;
  r ← expect "-" r;
  '(d, r) ← parse_digits 2 r 0;
  match r with
  | [] => Some (y, m, d, (0, 0, 0, 0), None)
  | _ :: r =>
      '(hh, mi, ss, us, r) ← parse_hh_mm_ss_ff r;
      match r with
      | [] => Some (y, m, d, (hh, mi, ss, us), None)
      | _ => off ← parse_offset r; Some (y, m, d, (hh, mi, ss, us), Some off)
      end
  end.

Definition fromisoformat (s : string) : result datetime :=
  match parse_isoformat (chars s) with
  | None => raise (ValueError "Invalid isoformat string")
  | Some (y, m, d, (hh, mi, ss, us), off) =>
      let* tz :=
        match off with
        | None => ok None
        | Some o => let* z := new_timezone o in ok (Some z)
        end in
      new_datetime y m d hh mi ss us tz
  end.

(** *** [timedelta(hours=...)] *)

(** A Python number given for [hours]: the annotation says [float], the
    script passes the integer 2. *)
Inductive pynum : Type :=
  | NInt (n : Z)
  | NFloat (x : float).

Definition MAX_DELTA_DAYS : Z := 999999999.

Definition new_timedelta (us : Z) : result Z :=
  let days := us / US_PER_DAY in
  if (- MAX_DELTA_DAYS <=? days) && (days <=? MAX_DELTA_DAYS) then ok us
  else raise (OverflowError "days must have magnitude <= 999999999").

(** Integer part of a finite float, towards zero. *)
Definition float_trunc (x : float) : Z :=
  match Prim2SF x with
  | S754_finite s m e =>
      let a := if 0 <=? e then Z.pos m * 2 ^ e else Z.pos m / 2 ^ (- e) in
      if s then - a else a
  | _ => 0
  end.

(** Nearest integer, ties to even, to [base + x] for a finite float [x]. *)
Definition round_plus (base : Z) (x : float) : Z :=
  match Prim2SF x with
  | S754_finite s m e =>
      let sm := if s then Z.neg m else Z.pos m in
      if 0 <=? e then base + sm * 2 ^ e
      else div_half_even (base * 2 ^ (- e) + sm) (2 ^ (- e))
  | _ => base
  end.

Definition float_of_Z (n : Z) : float := SF2Prim (binary_normalize prec emax n 0 false).

(** The whole hours are converted exactly; the fractional hours are
    multiplied by 3.6e9 in binary64 and the total is rounded to a whole
    microsecond, ties to even. *)
Definition timedelta_hours (hours : pynum) : result Z :=
  match hours with
  | NInt n => new_timedelta (n * US_PER_HOUR)
  | NFloat x =>
      match Prim2SF x with
      | S754_nan => raise (ValueError "cannot convert float NaN to integer")
      | S754_infinity _ => raise (OverflowError "cannot convert float infinity to integer")
      | _ =>
          let ip := float_trunc x in
          let fp := (x - float_of_Z ip)%float in
          new_timedelta (round_plus (ip * US_PER_HOUR) (fp * 3600000000)%float)
      end
  end.

(** ** Raw records: JSON scalars keyed by field name *)

Inductive pyval : Type :=
  | PNone
  | PBool (b : bool)
  | PInt (n : Z)
  | PFloat (x : float)
  | PStr (s : string).

Abbreviation record := (gmap string pyval).

(** [str(v)] *)
Definition py_str (v : pyval) : string :=
  match v with
  | PNone => "None"
  | PBool b => if b then "True" else "False"
  | PInt n => (if n <? 0 then "-" else "") +:+ decimal (Z.abs n)
  | PFloat x => float_repr x
  | PStr s => s
  end.

(** [float(v)] *)
Definition py_float (v : pyval) : result float :=
  match v with
  | PNone => raise (TypeError "float() argument must be a string or a real number")
  | PBool b => ok (if b then 1%float else 0%float)
  | PInt n => float_of_int n
  | PFloat x => ok x
  | PStr s =>
      match float_of_string s with
      | Some x => ok x
      | None => raise (ValueError "could not convert string to float")
      end
  end.

(** [i[key]] *)
Definition getitem (i : record) (key : string) : result pyval :=
  match i !! key with
  | Some v => ok v
  | None => raise (KeyError key)
  end.

(** [i.get(key, default)] *)
Definition dict_get (i : record) (key : string) (dflt : pyval) : pyval :=
  default dflt (i !! key).

(** ** solarWeather.py *)

(** Flare classes with their power level (lines 61-67). *)
Definition FLARE_OFFSETS : list (string * float) :=
  [("A", 1e-8%float); ("B", 1e-7%float); ("C", 1e-6%float);
   ("M", 1e-5%float); ("X", 1e-4%float)].

(** [FLARE_OFFSETS[4][1]] (line 70). *)
Definition STRONG_FLARE : float :=
  match FLARE_OFFSETS !! 4%nat with
  | Some (_, offset) => offset
  | None => nan
  end.

(** Lines 73-74; [flux >= STRONG_FLARE] is the IEEE comparison
    [STRONG_FLARE <= flux]. *)
Definition is_x_flare (flux : float) : bool := (STRONG_FLARE <=? flux)%float.

(** The [for] loop of [flare_class] (lines 96-98): the first row, in table
    order, whose offset the flux reaches; the label is built from [offset]. *)
Fixpoint flare_scan (flux : float) (table : list (string * float)) : option string :=
  match table with
  | [] => None
  | (flare, offset) :: rest =>
      if (offset <=? flux)%float
      then Some (float_repr offset +:+ format_2f (flux / offset)%float)
      else flare_scan flux rest
  end.

(** Lines 92-100. *)
Definition flare_class (flux : float) : string :=
  if (flux <=? 0)%float then "A0.00"
  else
    match flare_scan flux FLARE_OFFSETS with
    | Some label => label
    | None => "A" +:+ format_2f (flux / 1e-8)%float
    end.

(** Lines 104-108. *)
Record xrayEntry : Type := {
  time_utc : datetime;
  flux : float;
  observed_flux : float
}.

(** Lines 209-216. *)
Definition timeConvert (time_stamp : string) : result datetime :=
  let time_stamp :=
    if endswith time_stamp "Z" then drop_last time_stamp +:+ "+00:00" else time_stamp in
  let* date_time := fromisoformat time_stamp in
  let date_time :=
    match tzinfo date_time with
    | None => replace_tzinfo date_time utc
    | Some _ => date_time
    end in
  astimezone_utc date_time.

(** The body of the [try] block of [split_entries] (lines 149-151) followed by
    the construction of the entry (line 156). *)
Definition parse_entry (i : record) : result xrayEntry :=
  let* tag := getitem i "time_tag" in
  let* time := timeConvert (py_str tag) in
  let* fv := getitem i "flux" in
  let* flux := py_float fv in
  let* obs := py_float (dict_get i "observed_flux" (PFloat flux)) in
  ok {| time_utc := time; flux := flux; observed_flux := obs |}.

(** The loop of [split_entries] (lines 147-156): a record whose [try] block
    raises is passed over, any other is appended to [entries]. *)
Fixpoint collect_entries (data : list record) (entries : list xrayEntry) : list xrayEntry :=
  match data with
  | [] => entries
  | i :: rest =>
      match parse_entry i with
      | inl _ => collect_entries rest entries
      | inr e => collect_entries rest (entries ++ [e])
      end
  end.

(** [list.sort(key=...)]: a stable sort that only asks whether one key is
    less than another, and fails when that comparison fails. *)
Fixpoint insert_sorted {A K} (lt : K -> K -> result bool) (key : A -> K)
    (x : A) (l : list A) : result (list A) :=
  match l with
  | [] => ok [x]
  | y :: l' =>
      let* b := lt (key y) (key x) in
      if b then
        let* r := insert_sorted lt key x l' in
        ok (y :: r)
      else ok (x :: y :: l')
  end.

Fixpoint sort_by_key {A K} (lt : K -> K -> result bool) (key : A -> K)
    (l : list A) : result (list A) :=
  match l with
  | [] => ok []
  | x :: l' =>
      let* s := sort_by_key lt key l' in
      insert_sorted lt key x s
  end.

(** Lines 145-159.  The arguments [time_key] and [flux_key] are accepted and
    not read. *)
Definition split_entries (data : list record) (time_key flux_key : string)
  : result (list xrayEntry) :=
  let entries := collect_entries data [] in
  sort_by_key dt_lt time_utc entries.

(** [lst[-1]] of a non-empty list; [dflt] is never returned for one. *)
Definition last_entry (entries : list xrayEntry) (dflt : xrayEntry) : xrayEntry :=
  List.last entries dflt.

(** The comprehension of [getLastNHoras] (line 171):
    [start <= i.time_utc <= end] is [start <= i.time_utc and i.time_utc <= end]. *)
Fixpoint window (start stop : datetime) (entries : list xrayEntry)
  : result (list xrayEntry) :=
  match entries with
  | [] => ok []
  | i :: rest =>
      let* lo := dt_le start (time_utc i) in
      let* keep := if lo then dt_le (time_utc i) stop else ok false in
      let* tail := window start stop rest in
      ok (if keep then i :: tail else tail)
  end.

(** Lines 162-171. *)
Definition getLastNHoras (entries : list xrayEntry) (hours : pynum)
  : result (list xrayEntry) :=
  match entries with
  | [] => ok []
  | first :: _ =>
      let stop := time_utc (last_entry entries first) in
      let* delta := timedelta_hours hours in
      let* start := dt_sub stop delta in
      window start stop entries
  end.

(** [max(...)] over floats: the first item stays unless a later one is
    greater. *)
Definition py_max (first : float) (rest : list float) : float :=
  fold_left (fun best v => if (best <? v)%float then v else best) rest first.

(** [max(entries, key=lambda e: e.flux)] *)
Definition max_by_flux (first : xrayEntry) (rest : list xrayEntry) : xrayEntry :=
  fold_left (fun best e => if (flux best <? flux e)%float then e else best) rest first.

(** Lines 174-188: the summary dictionary. *)
Definition summary (entries : list xrayEntry) : result (gmap string pyval) :=
  match entries with
  | [] => raise (ValueError "No entries available.")
  | first :: rest =>
      let curr := flux (last_entry entries first) in
      let max_flux := py_max (flux first) (map flux rest) in
      ok (list_to_map
            [("start_time_utc", PStr (isoformat (time_utc first)));
             ("end_time_utc", PStr (isoformat (time_utc (last_entry entries first))));
             ("Amount of nodes(measurements)", PInt (Z.of_nat (length entries)));
             ("current_flux", PFloat curr);
             ("current_class", PStr (flare_class curr));
             ("max_flux", PStr (flare_class max_flux));
             ("max_class", PStr (flare_class max_flux))])
  end.

(** Lines 76-89.  The function returns [None]; what it does is print, so it
    is given as the lines it writes to standard output. *)
Definition x_flare_Alert (entries : list xrayEntry) : list string :=
  match entries with
  | [] => []
  | first :: rest =>
      let strongest := max_by_flux first rest in
      if negb (is_x_flare (flux strongest)) then []
      else if is_x_flare (flux strongest) then ["STRONG ASS FLARE DETECTED"]
      else []
  end.

(** The alert evaluation: whether the alert line was written. *)
Definition alert_raised (entries : list xrayEntry) : bool :=
  bool_decide (x_flare_Alert entries <> []).

(** ** The behaviour the specification words, for comparison *)

(** The flare scale read from the strongest class down: the first row whose
    lower bound the flux reaches gives the letter, followed by the sub-class. *)
Fixpoint spec_scan (flux : float) (table : list (string * float)) : option string :=
  match table with
  | [] => None
  | (flare, offset) :: rest =>
      if (offset <=? flux)%float
      then Some (flare +:+ format_2f (flux / offset)%float)
      else spec_scan flux rest
  end.

Definition spec_classify (flux : float) : string :=
  if (flux <=? 0)%float then "A0.00"
  else
    match spec_scan flux (rev FLARE_OFFSETS) with
    | Some label => label
    | None => "A" +:+ format_2f (flux / 1e-8)%float
    end.

(** ** Auxiliary notions used in the statements *)

(** A sample whose timestamp is normalised to UTC. *)
Definition is_utc (e : xrayEntry) : Prop := tzinfo (time_utc e) = Some 0.

(** Microseconds of a UTC timestamp since 0001-01-01T00:00:00+00:00. *)
Definition instant (e : xrayEntry) : Z := wall (time_utc e).

(** The greatest flux of a slice, as [summary] computes it. *)
Definition max_flux_of (entries : list xrayEntry) : option float :=
  match entries with
  | [] => None
  | first :: rest => Some (py_max (flux first) (map flux rest))
  end.

(** The samples of the input records in input order, unreadable records left out. *)
Definition readable_entries (data : list record) : list xrayEntry :=
  omap (fun i => match parse_entry i with inr e => Some e | inl _ => None end) data.

(** Insertion by UTC instant, the sort [split_entries] performs on samples
    that all carry UTC timestamps. *)
Fixpoint insert_by_instant (x : xrayEntry) (l : list xrayEntry) : list xrayEntry :=
  match l with
  | [] => [x]
  | y :: l' =>
      if instant y <? instant x then y :: insert_by_instant x l' else x :: y :: l'
  end.

Fixpoint sort_by_instant (l : list xrayEntry) : list xrayEntry :=
  match l with
  | [] => []
  | x :: l' => insert_by_instant x (sort_by_instant l')
  end.

(** Non-decreasing order of timestamps. *)
Definition time_le (a b : xrayEntry) : Prop := instant a <= instant b.

(** [m] is the maximum flux of [entries], NaN left aside: it is the flux of
    one of the samples, it is a number, and no flux that is a number is
    above it. *)
Definition greatest_flux (entries : list xrayEntry) (m : float) : bool :=
  negb (is_nan m)
  && existsb (fun e => (flux e =? m)%float) entries
  && forallb (fun e => is_nan (flux e) || (flux e <=? m)%float) entries.

(** ** Concrete inputs used in examples *)

(** 2026-01-17T00:00:00+00:00 *)
Definition t_2026_01_17 : datetime := {| wall := 63904204800000000; tzinfo := Some 0 |}.

Definition sample_2026 : xrayEntry :=
  {| time_utc := t_2026_01_17; flux := 1e-6; observed_flux := 1e-6 |}.

Definition record_plain : record :=
  {[ "time_tag" := PStr "2026-01-17T00:00:00Z"; "flux" := PFloat 1e-6 ]}.

Definition record_unreadable_observed : record :=
  {[ "time_tag" := PStr "2026-01-17T00:00:00Z"; "flux" := PFloat 1e-6;
     "observed_flux" := PStr "n/a" ]}.

Definition sample_C5 : xrayEntry :=
  {| time_utc := t_2026_01_17; flux := 5.5e-6; observed_flux := 5.5e-6 |}.

Definition sample_X2 : xrayEntry :=
  {| time_utc := t_2026_01_17; flux := 2e-4; observed_flux := 2e-4 |}.

Definition sample_nan : xrayEntry :=
  {| time_utc := t_2026_01_17; flux := nan; observed_flux := nan |}.

(** One microsecond more than two hours before [t_2026_01_17]. *)
Definition sample_before_window : xrayEntry :=
  {| time_utc := {| wall := 63904197599999999; tzinfo := Some 0 |};
     flux := 1e-6; observed_flux := 1e-6 |}.

(** ** Checks and tactics used in the proofs *)

(** What [month_of_yday] must return for day [r] of a year. *)
Definition month_day_ok (leap : bool) (r : Z) : bool :=
  let '(m, d) := month_of_yday leap r in
  (1 <=? m) && (m <=? 12) && (1 <=? d)
  && (d <=? DAYS_IN_MONTH m + (if (m =? 2) && leap then 1 else 0))
  && (DAYS_BEFORE_MONTH m + (if (2 <? m) && leap then 1 else 0) + d =? r + 1).

(** Case analysis on binary64 values given by sign, mantissa and exponent. *)
Ltac sf_cases :=
  unfold SFltb, SFleb, SFeqb;
  repeat match goal with x : spec_float |- _ => destruct x as [[]|[]| |[] ? ?] end;
  simpl; try discriminate; try reflexivity;
  change (Pos.compare_cont Eq ?x ?y) with (Pos.compare x y) in *;
  repeat match goal with
    | |- context [Z.compare ?a ?b] => destruct (Z.compare_spec a b)
    | |- context [Pos.compare ?a ?b] => destruct (Pos.compare_spec a b)
    end;
  simpl; try discriminate; try reflexivity; try lia.

(** ** The rest of the script: band filter, CSV export, the script body *)

(** [c.isspace()] for a character of a [str], code points below 256. *)
Definition py_isspace (c : ascii) : bool :=
  let n := N_of_ascii c in
  (((9 <=? n) && (n <=? 13)) || ((28 <=? n) && (n <=? 32)) || (n =? 133) || (n =? 160))%N.

Fixpoint lstrip_space (cs : list ascii) : list ascii :=
  match cs with
  | c :: rest => if py_isspace c then lstrip_space rest else cs
  | [] => []
  end.

(** [s.strip()] *)
Definition str_strip (s : string) : string :=
  text (rev (lstrip_space (rev (lstrip_space (chars s))))).

(** Lines 135-137: the records whose [energy] field, as text and stripped,
    equals the requested band. *)
Definition filter_data (rows : list record) (energy : string) : list record :=
  filter (fun i => str_strip (py_str (dict_get i "energy" (PStr ""))) = energy) rows.

(** Python's [format(x, ".10e")]: one digit, ten decimals and a decimal
    exponent of at least two digits, correctly rounded (ties to even). *)
Definition format_10e (x : float) : string :=
  match Prim2SF x with
  | S754_nan => "nan"
  | S754_infinity s => if s then "-inf" else "inf"
  | S754_zero s => (if s then "-" else "") +:+ "0.0000000000e+00"
  | S754_finite s m e =>
      let num := if 0 <=? e then Z.pos m * 2 ^ e else Z.pos m in
      let den := if 0 <=? e then 1 else 2 ^ (- e) in
      let q0 := dec_exponent num den in
      let k := q0 - 10 in
      let d0 := div_half_even (if k <=? 0 then num * 10 ^ (- k) else num)
                              (if k <=? 0 then den else den * 10 ^ k) in
      let '(d, q) := if d0 =? 10 ^ 11 then (10 ^ 10, q0 + 1) else (d0, q0) in
      let exs := decimal (Z.abs q) in
      (if s then "-" else "") +:+ text (zfill_chars 1 (d / 10 ^ 10)) +:+ "."
        +:+ text (zfill_chars 10 (d mod 10 ^ 10)) +:+ "e"
        +:+ (if q <? 0 then "-" else "+")
        +:+ (if Z.abs q <? 10 then "0" +:+ exs else exs)
  end.

Definition newline : string := String (ascii_of_N 10) "".

(** The header [save_file] writes first (line 193); no line end follows it. *)
Definition CSV_HEADER : string := "TIME(UTC),FLUX,OBSERVED_FLUX,FLARE_OFFSET,CONTAMINATED".

(** One [f.write] of the loop of [save_file] (lines 195-201). *)
Definition csv_row (i : xrayEntry) : string :=
  isoformat (time_utc i) +:+ "," +:+ format_10e (flux i) +:+ ","
    +:+ format_10e (observed_flux i) +:+ "," +:+ flare_class (flux i) +:+ newline.

(** Lines 191-201: the text written to the file, the writes in order. *)
Definition save_file (entries : list xrayEntry) : string :=
  fold_left (fun written i => written +:+ csv_row i) entries CSV_HEADER.

Definition SRC_URL : string :=
  "https://services.swpc.noaa.gov/json/goes/primary/xrays-1-day.json".

(** One element of the payload's entry list (lines 247-252). *)
Definition payload_entry (i : xrayEntry) : gmap string pyval :=
  list_to_map
    [("time_utc", PStr (isoformat (time_utc i)));
     ("flux", PFloat (flux i));
     ("observed_flux", PFloat (observed_flux i));
     ("flare_class", PStr (flare_class (flux i)))].

(** The payload dictionary (lines 242-255), one field per key. *)
Record payload : Type := {
  Source_URL : string;
  energy : string;
  two_hour_summary : gmap string pyval;
  entries_twoHour : list (gmap string pyval)
}.

(** How the script body ends when it does not complete: the [RuntimeError] it
    raises itself, or an exception of one of the functions it calls. *)
Inductive script_error : Type :=
  | RuntimeError (msg : string)
  | Uncaught (e : exn).

(** What the script body hands to its sinks: the payload for [write_file] and
    the text [save_file] writes. *)
Record script_output : Type := {
  out_window : list xrayEntry;
  out_payload : payload;
  out_csv : string
}.

(** The script body (lines 219-260) from the fetched rows on. *)
Definition script_body (rows : list record) : script_error + script_output :=
  let data := filter_data rows "0.1-0.8nm" in
  match data with
  | [] => inl (RuntimeError "No energy value found for energy='0.1-0.8nm'")
  | _ :: _ =>
      match
        (let* data := split_entries data "time_tag" "flux" in
         let* data2h := getLastNHoras data (NInt 2) in
         let* dataSummary := summary data2h in
         ok {| out_window := data2h;
               out_payload :=
                 {| Source_URL := SRC_URL;
                    energy := "0.1-0.8nm";
                    two_hour_summary := dataSummary;
                    entries_twoHour := map payload_entry data2h |};
               out_csv := save_file data2h |})
      with
      | inl e => inl (Uncaught e)
      | inr out => inr out
      end
  end.

(** Further concrete inputs for examples. *)
Definition record_later : record :=
  {[ "energy" := PStr "0.1-0.8nm"; "time_tag" := PStr "2026-01-17T03:00:00Z";
     "flux" := PFloat 2e-4; "observed_flux" := PFloat 3e-4 ]}.

Definition sample_later : xrayEntry :=
  {| time_utc := {| wall := 63904215600000000; tzinfo := Some 0 |};
     flux := 2e-4; observed_flux := 3e-4 |}.

(** ** Notions used in the statements about the script *)

(** The first character of a text is not white space (or the text is empty). *)
Definition head_not_space (cs : list ascii) : Prop :=
  match cs with
  | c :: _ => py_isspace c = false
  | [] => True
  end.

(** Number of occurrences of a character in a text. *)
Definition count_char (c : ascii) (s : string) : nat :=
  length (filter (fun x => x = c) (chars s)).

Definition comma : ascii := ","%char.
Definition line_end : ascii := ascii_of_N 10.

(** A character that is neither the field separator nor the line end. *)
Definition plain_char (c : ascii) : bool :=
  negb (Ascii.eqb c comma) && negb (Ascii.eqb c line_end).

Definition plain (s : string) : Prop := forallb plain_char (chars s) = true.

(** * Properties *)

(** ** Evaluation on small inputs *)

Example format_2f_rounds_half_even :
  map format_2f [0.125; 0.375; 2.675; 1; (-0.001)]%float
  = ["0.12"; "0.38"; "2.67"; "1.00"; "-0.00"].
Proof. vm_compute. reflexivity. Qed.

Example float_repr_offsets :
  map (fun row => float_repr (snd row)) FLARE_OFFSETS
  = ["1e-08"; "1e-07"; "1e-06"; "1e-05"; "0.0001"].
Proof. vm_compute. reflexivity. Qed.

Example float_of_string_examples :
  map float_of_string ["1e-8"; " 4.2E-07 "; "1_000.5"; "n/a"; ""; "1e"]
  = [Some 1e-8%float; Some 4.2e-7%float; Some 1000.5%float; None; None; None].
Proof. vm_compute. reflexivity. Qed.

Example STRONG_FLARE_value : STRONG_FLARE = 1e-4%float.
Proof. reflexivity. Qed.

Example timeConvert_examples :
  map timeConvert ["2026-01-17T00:00:00Z"; "2026-01-17T05:30:00+05:30"; "2026-01-17 00:00:00"]
  = [ok t_2026_01_17; ok t_2026_01_17; ok t_2026_01_17]
  /\ succeeded (timeConvert "17/01/2026") = false.
Proof. split; vm_compute; reflexivity. Qed.

Example timedelta_hours_examples :
  map timedelta_hours [NInt 2; NFloat 2; NFloat 0.5]
  = [ok 7200000000; ok 7200000000; ok 1800000000]
  /\ succeeded (timedelta_hours (NFloat nan)) = false.
Proof. split; vm_compute; reflexivity. Qed.

(** ** Order of binary64 values *)

Lemma SFltb_leb_trans (a b c : spec_float) :
  SFltb a b = true -> SFleb b c = true -> SFltb a c = true.
Proof. sf_cases. Qed.

Lemma SFleb_trans (a b c : spec_float) :
  SFleb a b = true -> SFleb b c = true -> SFleb a c = true.
Proof. sf_cases. Qed.

Lemma SFltb_not_leb (a b : spec_float) : SFltb a b = true -> SFleb b a = false.
Proof. sf_cases. Qed.

Lemma SFleb_total (a b : spec_float) :
  a <> S754_nan -> b <> S754_nan -> SFltb a b = false -> SFleb b a = true.
Proof.
  intros Ha Hb. destruct a as [sa|sa| |sa ma ea]; try congruence;
  destruct b as [sb|sb| |sb mb eb]; try congruence; clear Ha Hb;
  repeat match goal with s : bool |- _ => destruct s end;
  unfold SFltb, SFleb; simpl; try discriminate; try reflexivity;
  change (Pos.compare_cont Eq ?x ?y) with (Pos.compare x y) in *;
  rewrite (Z.compare_antisym ea eb); destruct (Z.compare ea eb); simpl;
  try discriminate; try reflexivity;
  rewrite (Pos.compare_antisym ma mb); destruct (Pos.compare ma mb); simpl;
  try discriminate; try reflexivity.
Qed.

Lemma ltb_leb_trans (x y z : float) :
  (x <? y)%float = true -> (y <=? z)%float = true -> (x <? z)%float = true.
Proof. rewrite !FloatAxioms.ltb_spec, FloatAxioms.leb_spec. apply SFltb_leb_trans. Qed.

Lemma leb_trans (x y z : float) :
  (x <=? y)%float = true -> (y <=? z)%float = true -> (x <=? z)%float = true.
Proof. rewrite !FloatAxioms.leb_spec. apply SFleb_trans. Qed.

Lemma ltb_not_leb (x y : float) : (x <? y)%float = true -> (y <=? x)%float = false.
Proof. rewrite FloatAxioms.ltb_spec, FloatAxioms.leb_spec. apply SFltb_not_leb. Qed.

Lemma below_not_reached (x c o : float) :
  (x <? c)%float = true -> (c <=? o)%float = true -> (o <=? x)%float = false.
Proof. intros H1 H2. apply ltb_not_leb. exact (ltb_leb_trans _ _ _ H1 H2). Qed.

Lemma not_nan_spec (x : float) : is_nan x = false -> Prim2SF x <> S754_nan.
Proof.
  unfold is_nan. rewrite FloatAxioms.eqb_spec. intros H E. rewrite E in H. discriminate H.
Qed.

Lemma ltb_leb (x y : float) : (x <? y)%float = true -> (x <=? y)%float = true.
Proof.
  rewrite FloatAxioms.ltb_spec, FloatAxioms.leb_spec. unfold SFltb, SFleb.
  destruct (SFcompare _ _) as [[]|]; try discriminate; reflexivity.
Qed.

Lemma leb_refl (x : float) : is_nan x = false -> (x <=? x)%float = true.
Proof.
  unfold is_nan. rewrite FloatAxioms.eqb_spec, FloatAxioms.leb_spec. unfold SFeqb, SFleb.
  destruct (SFcompare _ _) as [[]|]; try discriminate; reflexivity.
Qed.

Lemma leb_total (x y : float) :
  is_nan x = false -> is_nan y = false -> (x <? y)%float = false -> (y <=? x)%float = true.
Proof.
  intros Hx Hy. rewrite FloatAxioms.ltb_spec, FloatAxioms.leb_spec.
  apply SFleb_total; apply not_nan_spec; assumption.
Qed.

Lemma SFcompare_refl (a : spec_float) : a <> S754_nan -> SFcompare a a = Some Eq.
Proof.
  destruct a as [[]|[]| |[] m e]; intros H; try reflexivity; try congruence;
    simpl; rewrite Z.compare_refl;
    change (Pos.compare_cont Eq m m) with (Pos.compare m m);
    rewrite Pos.compare_refl; reflexivity.
Qed.

Lemma is_nan_spec (x : float) : is_nan x = true -> Prim2SF x = S754_nan.
Proof.
  unfold is_nan. rewrite FloatAxioms.eqb_spec. unfold SFeqb. intros H.
  destruct (Prim2SF x) as [s|s| |s m e] eqn:E; try reflexivity;
    rewrite SFcompare_refl in H by discriminate; discriminate H.
Qed.

Lemma nan_ltb (x v : float) : is_nan x = true -> (x <? v)%float = false.
Proof.
  intros H. rewrite FloatAxioms.ltb_spec, (is_nan_spec x H). reflexivity.
Qed.

Lemma leb_nan (c x : float) : is_nan x = true -> (c <=? x)%float = false.
Proof.
  intros H. rewrite FloatAxioms.leb_spec, (is_nan_spec x H).
  unfold SFleb. destruct (Prim2SF c); reflexivity.
Qed.

Lemma ltb_nan_r (x v : float) : is_nan v = true -> (x <? v)%float = false.
Proof.
  intros H. rewrite FloatAxioms.ltb_spec, (is_nan_spec v H).
  unfold SFltb. destruct (Prim2SF x); reflexivity.
Qed.

Lemma leb_not_nan (c x : float) : (c <=? x)%float = true -> is_nan x = false.
Proof.
  intros H. destruct (is_nan x) eqn:E; [|reflexivity].
  rewrite (leb_nan c x E) in H. discriminate H.
Qed.

Lemma SFeqb_leb_trans (c x m : spec_float) :
  SFeqb x m = true -> SFleb c m = true -> SFleb c x = true.
Proof. sf_cases. Qed.

Lemma eqb_leb_trans (c x m : float) :
  (x =? m)%float = true -> (c <=? m)%float = true -> (c <=? x)%float = true.
Proof. rewrite FloatAxioms.eqb_spec, !FloatAxioms.leb_spec. apply SFeqb_leb_trans. Qed.

Lemma eqb_refl (x : float) : is_nan x = false -> (x =? x)%float = true.
Proof. unfold is_nan. intros H. apply negb_false_iff in H. exact H. Qed.

(** ** Flare classification *)

Lemma repr_1e_8 : float_repr 1e-8 = "1e-08".
Proof. vm_compute. reflexivity. Qed.

(** Once the flux reaches the first row of the table, the loop of
    [flare_class] returns there: every flux of at least 1e-8 gets the text of
    the offset 1e-8 followed by flux / 1e-8. *)
Lemma flare_class_first_row (flux : float) :
  (1e-8 <=? flux)%float = true ->
  flare_class flux = "1e-08" +:+ format_2f (flux / 1e-8)%float.
Proof.
  intros H. unfold flare_class.
  assert (Hpos : (flux <=? 0)%float = false).
  { apply ltb_not_leb. apply (ltb_leb_trans _ 1e-8%float); [reflexivity | exact H]. }
  rewrite Hpos. cbn [FLARE_OFFSETS flare_scan]. rewrite H, repr_1e_8. reflexivity.
Qed.

(** C1 (evaluation of the code where the claim fails): the claim says that a
    flux of at least 1e-8 is labelled with the letter of the strongest class
    it reaches and flux / lower bound, so that classify(1e-4) = "X1.00" and
    classify(5.5e-6) = "C5.50"; that reading is [spec_classify].  The loop of
    [flare_class] walks the table from A upwards and prints the offset, not
    the letter: it returns "1e-0810000.00" and "1e-08550.00". *)
Theorem flare_class_scans_from_A :
  flare_class 1e-4 = "1e-0810000.00" /\ spec_classify 1e-4 = "X1.00" /\
  flare_class 5.5e-6 = "1e-08550.00" /\ spec_classify 5.5e-6 = "C5.50".
Proof. repeat split; vm_compute; reflexivity. Qed.

(** C7: for every flux less than or equal to 0, [flare_class] returns exactly
    "A0.00"; for every positive flux strictly below 1e-8 it returns "A"
    followed by flux / 1e-8 with two decimals; and flare_class(9.99e-9) is
    "A1.00". *)
Theorem flare_class_below_A (flux : float) :
  ((flux <=? 0)%float = true -> flare_class flux = "A0.00") /\
  ((0 <? flux)%float = true -> (flux <? 1e-8)%float = true ->
     flare_class flux = "A" +:+ format_2f (flux / 1e-8)%float) /\
  flare_class 9.99e-9 = "A1.00".
Proof.
  split; [|split].
  - intros H. unfold flare_class. rewrite H. reflexivity.
  - intros Hpos Hlt. unfold flare_class.
    rewrite (ltb_not_leb _ _ Hpos). cbn [FLARE_OFFSETS flare_scan].
    rewrite !(below_not_reached flux 1e-8%float) by (exact Hlt || reflexivity).
    reflexivity.
  - vm_compute. reflexivity.
Qed.

Lemma flare_class_below_A_witness :
  flare_class (-1) = "A0.00" /\ flare_class 5e-9 = "A" +:+ format_2f (5e-9 / 1e-8)%float.
Proof.
  split.
  - apply (proj1 (flare_class_below_A (-1)%float)). reflexivity.
  - apply (proj1 (proj2 (flare_class_below_A 5e-9%float))); reflexivity.
Defined.

(** ** The greatest flux and the alert *)

Lemma max_by_flux_py_max (first : xrayEntry) (rest : list xrayEntry) :
  flux (max_by_flux first rest) = py_max (flux first) (map flux rest).
Proof.
  unfold max_by_flux, py_max. revert first.
  induction rest as [|e rest IH]; intros first; simpl; [reflexivity|].
  rewrite IH. destruct (flux first <? flux e)%float; reflexivity.
Qed.

Lemma py_max_in (a : float) (l : list float) : py_max a l ∈ a :: l.
Proof.
  unfold py_max. revert a. induction l as [|v l IH]; intros a; simpl.
  - apply elem_of_cons. left. reflexivity.
  - specialize (IH (if (a <? v)%float then v else a)).
    apply elem_of_cons in IH as [IH|IH].
    + rewrite IH. destruct (a <? v)%float.
      * apply elem_of_cons. right. apply elem_of_cons. left. reflexivity.
      * apply elem_of_cons. left. reflexivity.
    + apply elem_of_cons. right. apply elem_of_cons. right. exact IH.
Qed.

(** Without NaN among the values, [py_max] is an upper bound of all of them. *)
Lemma py_max_upper (a : float) (l : list float) :
  Forall (fun v => is_nan v = false) (a :: l) ->
  forall v, v ∈ a :: l -> (v <=? py_max a l)%float = true.
Proof.
  unfold py_max. revert a. induction l as [|w l IH]; intros a Hall v Hv.
  - apply elem_of_cons in Hv as [->|Hv]; [|inversion Hv].
    simpl. apply leb_refl. inversion Hall; assumption.
  - simpl. inversion Hall as [|? ? Ha Hwl]; subst.
    inversion Hwl as [|? ? Hw Hl]; subst.
    set (b := if (a <? w)%float then w else a).
    assert (Hb : is_nan b = false) by (unfold b; destruct (a <? w)%float; assumption).
    assert (Hab : (a <=? b)%float = true).
    { unfold b. destruct (a <? w)%float eqn:E; [apply ltb_leb, E | apply leb_refl, Ha]. }
    assert (Hwb : (w <=? b)%float = true).
    { unfold b. destruct (a <? w)%float eqn:E;
        [apply leb_refl, Hw | apply leb_total; assumption]. }
    assert (Hbm : (b <=? fold_left (fun best v => if (best <? v)%float then v else best)
                           l b)%float = true).
    { apply (IH b); [constructor; assumption|]. apply elem_of_cons. left. reflexivity. }
    apply elem_of_cons in Hv as [->|Hv]; [exact (leb_trans _ _ _ Hab Hbm)|].
    apply elem_of_cons in Hv as [->|Hv]; [exact (leb_trans _ _ _ Hwb Hbm)|].
    apply (IH b); [constructor; assumption|]. apply elem_of_cons. right. exact Hv.
Qed.

Lemma alert_raised_eq (first : xrayEntry) (rest : list xrayEntry) :
  alert_raised (first :: rest) = is_x_flare (py_max (flux first) (map flux rest)).
Proof.
  unfold alert_raised, x_flare_Alert. rewrite max_by_flux_py_max.
  destruct (is_x_flare _); reflexivity.
Qed.

Lemma py_max_nan (a : float) (l : list float) : is_nan a = true -> py_max a l = a.
Proof.
  intros H. unfold py_max. induction l as [|v l IH]; simpl; [reflexivity|].
  rewrite (nan_ltb a v H). exact IH.
Qed.

(** When the first value is a number, [py_max] is a number and an upper
    bound of every value that is a number. *)
Lemma py_max_first_not_nan (a : float) (l : list float) :
  is_nan a = false ->
  is_nan (py_max a l) = false /\
  forall v, v ∈ a :: l -> is_nan v = false -> (v <=? py_max a l)%float = true.
Proof.
  unfold py_max. revert a. induction l as [|w l IH]; intros a Ha.
  - simpl. split; [exact Ha|]. intros v Hv Hn.
    apply elem_of_cons in Hv as [->|Hv]; [apply leb_refl, Ha | inversion Hv].
  - simpl. set (b := if (a <? w)%float then w else a).
    assert (Hb : is_nan b = false).
    { unfold b. destruct (a <? w)%float eqn:E; [|exact Ha].
      destruct (is_nan w) eqn:Hw; [|reflexivity].
      rewrite (ltb_nan_r a w Hw) in E. discriminate E. }
    destruct (IH b Hb) as [Hm Hup]. split; [exact Hm|].
    assert (Hbm : (b <=? fold_left (fun best v => if (best <? v)%float then v else best)
                           l b)%float = true).
    { apply Hup; [apply elem_of_cons; left; reflexivity | exact Hb]. }
    intros v Hv Hn. apply elem_of_cons in Hv as [->|Hv].
    + apply (leb_trans _ b); [|exact Hbm].
      unfold b. destruct (a <? w)%float eqn:E; [apply ltb_leb, E | apply leb_refl, Ha].
    + apply elem_of_cons in Hv as [->|Hv].
      * apply (leb_trans _ b); [|exact Hbm].
        unfold b. destruct (a <? w)%float eqn:E;
          [apply leb_refl, Hn | apply leb_total; assumption].
      * apply Hup; [apply elem_of_cons; right; exact Hv | exact Hn].
Qed.

(** The alert of a list whose first flux is a number: some sample reaches
    the threshold. *)
Lemma alert_raised_first_not_nan (first : xrayEntry) (rest : list xrayEntry) :
  is_nan (flux first) = false ->
  (alert_raised (first :: rest) = true <->
     exists e, e ∈ first :: rest /\ (1e-4 <=? flux e)%float = true).
Proof.
  intros Hfirst. rewrite alert_raised_eq. unfold is_x_flare.
  change STRONG_FLARE with 1e-4%float.
  destruct (py_max_first_not_nan (flux first) (map flux rest) Hfirst) as [_ Hup].
  change (flux first :: map flux rest) with (map flux (first :: rest)) in Hup.
  split.
  - intros H. pose proof (py_max_in (flux first) (map flux rest)) as Hin.
    change (flux first :: map flux rest) with (map flux (first :: rest)) in Hin.
    apply list_elem_of_fmap in Hin as (e & He & Hin).
    exists e. split; [exact Hin|]. rewrite <- He. exact H.
  - intros (e & He & H). apply (leb_trans _ (flux e)); [exact H|].
    apply Hup; [|exact (leb_not_nan _ _ H)].
    apply list_elem_of_fmap. exists e. split; [reflexivity | exact He].
Qed.

Lemma greatest_flux_spec (entries : list xrayEntry) (m : float) :
  greatest_flux entries m = true <->
  is_nan m = false /\
  (exists e, e ∈ entries /\ (flux e =? m)%float = true) /\
  (forall e, e ∈ entries -> is_nan (flux e) = false -> (flux e <=? m)%float = true).
Proof.
  unfold greatest_flux. rewrite !andb_true_iff, negb_true_iff.
  rewrite existsb_exists, forallb_forall.
  split.
  - intros [[Hm (e & He & Heq)] Hall]. split; [exact Hm|]. split.
    + exists e. split; [apply list_elem_of_In, He | exact Heq].
    + intros x Hx Hn. specialize (Hall x (proj1 (list_elem_of_In _ _) Hx)).
      rewrite Hn in Hall. exact Hall.
  - intros (Hm & (e & He & Heq) & Hall). split; [split; [exact Hm|]|].
    + exists e. split; [apply list_elem_of_In, He | exact Heq].
    + intros x Hx. destruct (is_nan (flux x)) eqn:Hn; [reflexivity|].
      apply Hall; [apply list_elem_of_In, Hx | exact Hn].
Qed.

(** C6 (amended): for every sample list the alert is raised if and only if
    the list is non-empty, the flux of its first sample is not NaN, and some
    sample's flux is at least 1e-4.  For a list whose first flux is not NaN
    the maximum flux over the list, NaN left aside, exists, and the alert is
    raised exactly when that maximum is at least 1e-4; so it is raised for
    every such slice whose maximum flux is 2e-4.  The alert is not raised for
    the empty list. *)
Theorem alert_iff_max_reaches_X (entries : list xrayEntry) :
  (alert_raised entries = true <->
     exists first rest, entries = first :: rest /\ is_nan (flux first) = false /\
       exists e, e ∈ entries /\ (1e-4 <=? flux e)%float = true) /\
  (forall first rest, entries = first :: rest -> is_nan (flux first) = false ->
     (exists m, greatest_flux entries m = true) /\
     (forall m, greatest_flux entries m = true ->
        (alert_raised entries = true <-> (1e-4 <=? m)%float = true)) /\
     (greatest_flux entries 2e-4 = true -> alert_raised entries = true)) /\
  alert_raised [] = false.
Proof.
  assert (Hmax : forall first rest m,
            is_nan (flux first) = false -> greatest_flux (first :: rest) m = true ->
            (alert_raised (first :: rest) = true <-> (1e-4 <=? m)%float = true)).
  { intros first rest m Hfirst Hm.
    apply greatest_flux_spec in Hm as (Hnan & (x & Hx & Hxm) & Hup).
    rewrite (alert_raised_first_not_nan first rest Hfirst). split.
    - intros (e & He & H). apply (leb_trans _ (flux e)); [exact H|].
      apply Hup; [exact He | exact (leb_not_nan _ _ H)].
    - intros H. exists x. split; [exact Hx|]. exact (eqb_leb_trans _ _ _ Hxm H). }
  split; [|split; [|reflexivity]].
  - destruct entries as [|first rest].
    + split; [discriminate | intros (f & r & E & _); discriminate E].
    + split.
      * intros H. exists first, rest. split; [reflexivity|].
        assert (Hfirst : is_nan (flux first) = false).
        { destruct (is_nan (flux first)) eqn:E; [|reflexivity].
          rewrite alert_raised_eq, (py_max_nan _ _ E) in H. unfold is_x_flare in H.
          rewrite (leb_nan _ _ E) in H. discriminate H. }
        split; [exact Hfirst|]. apply (alert_raised_first_not_nan first rest Hfirst), H.
      * intros (f & r & [= <- <-] & Hfirst & H).
        apply (alert_raised_first_not_nan first rest Hfirst), H.
  - intros first rest -> Hfirst. split; [|split].
    + exists (py_max (flux first) (map flux rest)).
      destruct (py_max_first_not_nan (flux first) (map flux rest) Hfirst) as [Hm Hup].
      apply greatest_flux_spec. split; [exact Hm|]. split.
      * pose proof (py_max_in (flux first) (map flux rest)) as Hin.
        change (flux first :: map flux rest) with (map flux (first :: rest)) in Hin.
        apply list_elem_of_fmap in Hin as (e & He & Hin).
        exists e. split; [exact Hin|]. rewrite <- He. apply eqb_refl, Hm.
      * intros e He Hn. apply Hup; [|exact Hn].
        change (flux first :: map flux rest) with (map flux (first :: rest)).
        apply list_elem_of_fmap. exists e. split; [reflexivity | exact He].
    + intros m Hm. exact (Hmax first rest m Hfirst Hm).
    + intros Hm. apply (Hmax first rest 2e-4%float Hfirst Hm). reflexivity.
Qed.

Lemma alert_iff_max_reaches_X_witness :
  greatest_flux [sample_2026; sample_X2; sample_nan] 2e-4 = true /\
  alert_raised [sample_2026; sample_X2; sample_nan] = true.
Proof.
  split; [reflexivity|].
  apply (proj2 (proj2 (proj1 (proj2
           (alert_iff_max_reaches_X [sample_2026; sample_X2; sample_nan]))
           sample_2026 [sample_X2; sample_nan] eq_refl eq_refl))).
  reflexivity.
Defined.

(** C6 as stated fails: the list of a sample whose flux is NaN followed by
    a sample of flux 2e-4 is non-empty and its maximum flux, 2e-4, exceeds
    1e-4, yet no alert is raised; with the same two samples in the other
    order it is raised. *)
Lemma alert_masked_by_leading_nan :
  greatest_flux [sample_nan; sample_X2] 2e-4 = true /\
  (1e-4 <=? 2e-4)%float = true /\
  sample_X2 ∈ [sample_nan; sample_X2] /\
  (1e-4 <=? flux sample_X2)%float = true /\
  x_flare_Alert [sample_nan; sample_X2] = [] /\
  alert_raised [sample_nan; sample_X2] = false /\
  alert_raised [sample_X2; sample_nan] = true.
Proof.
  repeat split; try (vm_compute; reflexivity).
  apply elem_of_cons. right. apply elem_of_cons. left. reflexivity.
Qed.

(** ** Timestamps produced by [timeConvert] are in UTC *)
Lemma astimezone_utc_tz (d r : datetime) :
  astimezone_utc d = ok r -> tzinfo r = Some 0.
Proof.
  unfold astimezone_utc. destruct (tzinfo d) as [off|] eqn:Htz.
  - destruct (Z.eqb_spec off 0) as [->|Hne].
    + intros [= <-]. exact Htz.
    + destruct (dt_sub d off) as [e|r']; simpl; [discriminate|].
      intros [= <-]. reflexivity.
  - intros [= <-]. reflexivity.
Qed.

Lemma timeConvert_utc (s : string) (d : datetime) :
  timeConvert s = ok d -> tzinfo d = Some 0.
Proof.
  unfold timeConvert.
  destruct (fromisoformat _) as [e|d0]; simpl; [discriminate|].
  apply astimezone_utc_tz.
Qed.

Lemma parse_entry_utc (i : record) (e : xrayEntry) :
  parse_entry i = ok e -> is_utc e.
Proof.
  unfold parse_entry.
  destruct (getitem i "time_tag") as [?|tag]; simpl; [discriminate|].
  destruct (timeConvert (py_str tag)) as [?|t] eqn:Ht; simpl; [discriminate|].
  destruct (getitem i "flux") as [?|fv]; simpl; [discriminate|].
  destruct (py_float fv) as [?|f]; simpl; [discriminate|].
  destruct (py_float _) as [?|o]; simpl; [discriminate|].
  intros [= <-]. exact (timeConvert_utc _ _ Ht).
Qed.

Lemma collect_entries_readable (data : list record) (acc : list xrayEntry) :
  collect_entries data acc = (acc ++ readable_entries data)%list.
Proof.
  revert acc. induction data as [|i data IH]; intros acc; simpl.
  - symmetry. apply app_nil_r.
  - unfold readable_entries. simpl. destruct (parse_entry i) as [?|e]; simpl.
    + apply IH.
    + rewrite IH. rewrite <- app_assoc. reflexivity.
Qed.

Lemma readable_entries_utc (data : list record) : Forall is_utc (readable_entries data).
Proof.
  induction data as [|i data IH]; unfold readable_entries; simpl; [constructor|].
  destruct (parse_entry i) as [?|e] eqn:He; simpl; [exact IH|].
  constructor; [exact (parse_entry_utc _ _ He) | exact IH].
Qed.

(** ** The sort of [split_entries] *)

Lemma dt_lt_utc (a b : xrayEntry) :
  is_utc a -> is_utc b -> dt_lt (time_utc a) (time_utc b) = ok (instant a <? instant b).
Proof.
  unfold is_utc, dt_lt, dt_cmp, instant. intros -> ->. rewrite !Z.sub_0_r. reflexivity.
Qed.

Lemma dt_le_utc (a b : datetime) :
  tzinfo a = Some 0 -> tzinfo b = Some 0 -> dt_le a b = ok (wall a <=? wall b).
Proof. unfold dt_le, dt_cmp. intros -> ->. rewrite !Z.sub_0_r. reflexivity. Qed.

Lemma insert_by_instant_utc (x : xrayEntry) (l : list xrayEntry) :
  is_utc x -> Forall is_utc l -> Forall is_utc (insert_by_instant x l).
Proof.
  intros Hx Hl. induction Hl as [|y l Hy Hl IH]; simpl.
  - repeat constructor. exact Hx.
  - destruct (instant y <? instant x); repeat constructor; assumption.
Qed.

Lemma sort_by_instant_utc (l : list xrayEntry) :
  Forall is_utc l -> Forall is_utc (sort_by_instant l).
Proof.
  induction 1 as [|x l Hx Hl IH]; simpl; [constructor|].
  apply insert_by_instant_utc; assumption.
Qed.

Lemma insert_sorted_utc (x : xrayEntry) (l : list xrayEntry) :
  is_utc x -> Forall is_utc l ->
  insert_sorted dt_lt time_utc x l = ok (insert_by_instant x l).
Proof.
  intros Hx Hl. induction Hl as [|y l Hy Hl IH]; simpl; [reflexivity|].
  rewrite (dt_lt_utc y x Hy Hx). simpl.
  destruct (instant y <? instant x); [|reflexivity].
  rewrite IH. reflexivity.
Qed.

Lemma sort_by_key_utc (l : list xrayEntry) :
  Forall is_utc l -> sort_by_key dt_lt time_utc l = ok (sort_by_instant l).
Proof.
  induction 1 as [|x l Hx Hl IH]; simpl; [reflexivity|].
  rewrite IH. simpl. apply insert_sorted_utc; [exact Hx|].
  apply sort_by_instant_utc. exact Hl.
Qed.

Lemma insert_by_instant_perm (x : xrayEntry) (l : list xrayEntry) :
  Permutation (insert_by_instant x l) (x :: l).
Proof.
  induction l as [|y l IH]; simpl; [reflexivity|].
  destruct (instant y <? instant x); [|reflexivity].
  rewrite IH. apply perm_swap.
Qed.

Lemma sort_by_instant_perm (l : list xrayEntry) : Permutation (sort_by_instant l) l.
Proof.
  induction l as [|x l IH]; simpl; [reflexivity|].
  rewrite insert_by_instant_perm. rewrite IH. reflexivity.
Qed.

Lemma insert_by_instant_sorted (x : xrayEntry) (l : list xrayEntry) :
  StronglySorted time_le l -> StronglySorted time_le (insert_by_instant x l).
Proof.
  induction 1 as [|y l Hs IH Hy]; simpl.
  - repeat constructor.
  - destruct (Z.ltb_spec (instant y) (instant x)) as [Hlt|Hge].
    + constructor; [exact IH|].
      rewrite (insert_by_instant_perm x l). constructor; [unfold time_le; lia | exact Hy].
    + constructor; [constructor; assumption|].
      constructor; [exact Hge|].
      eapply Forall_impl; [exact Hy|]. unfold time_le. intros z Hz. lia.
Qed.

Lemma sort_by_instant_sorted (l : list xrayEntry) : StronglySorted time_le (sort_by_instant l).
Proof.
  induction l as [|x l IH]; simpl; [constructor|].
  apply insert_by_instant_sorted. exact IH.
Qed.

(** Insertion keeps the relative order of samples with one timestamp. *)
Lemma insert_by_instant_stable (t : Z) (x : xrayEntry) (l : list xrayEntry) :
  filter (fun e => instant e = t) (insert_by_instant x l)
  = filter (fun e => instant e = t) (x :: l).
Proof.
  induction l as [|y l IH]; simpl; [reflexivity|].
  destruct (Z.ltb_spec (instant y) (instant x)) as [Hlt|Hge]; [|reflexivity].
  rewrite (filter_cons _ y), IH, !(filter_cons _ x), !(filter_cons _ y).
  repeat case_decide; try reflexivity; lia.
Qed.

Lemma sort_by_instant_stable (t : Z) (l : list xrayEntry) :
  filter (fun e => instant e = t) (sort_by_instant l) = filter (fun e => instant e = t) l.
Proof.
  induction l as [|x l IH]; simpl; [reflexivity|].
  rewrite insert_by_instant_stable, !(filter_cons _ x), IH. reflexivity.
Qed.

Lemma split_entries_eq (data : list record) (time_key flux_key : string) :
  split_entries data time_key flux_key = ok (sort_by_instant (readable_entries data)).
Proof.
  unfold split_entries. rewrite collect_entries_readable. simpl.
  apply sort_by_key_utc, readable_entries_utc.
Qed.

(** C5: for every list of raw records (and any key arguments)
    [split_entries] returns a list sorted in non-decreasing order of
    [time_utc], made of the readable records' samples, in which samples with
    one timestamp keep their input order. *)
Theorem split_entries_sorted_stable (data : list record) (time_key flux_key : string) :
  exists out,
    split_entries data time_key flux_key = ok out /\
    StronglySorted time_le out /\
    Forall is_utc out /\
    Permutation out (readable_entries data) /\
    forall t, filter (fun e => instant e = t) out
              = filter (fun e => instant e = t) (readable_entries data).
Proof.
  exists (sort_by_instant (readable_entries data)).
  split; [apply split_entries_eq|].
  split; [apply sort_by_instant_sorted|].
  split; [apply sort_by_instant_utc, readable_entries_utc|].
  split; [apply sort_by_instant_perm|].
  intros t. apply sort_by_instant_stable.
Qed.

(** C10: for every record list and every choice of [time_key] and
    [flux_key], [split_entries] returns what it returns with the default
    arguments; the record keys read are "time_tag" and "flux" whatever is
    passed, so a record keyed "t" and "f" yields nothing even when those
    names are given. *)
Theorem split_entries_ignores_keys (data : list record) (time_key flux_key : string) :
  split_entries data time_key flux_key = split_entries data "time_tag" "flux" /\
  split_entries
    [{[ "t" := PStr "2026-01-17T00:00:00Z"; "f" := PFloat 1e-6 ]}] "t" "f" = ok [] /\
  split_entries [record_plain] "t" "f" = ok [sample_2026].
Proof. split; [reflexivity|]. split; vm_compute; reflexivity. Qed.
(** ** Mapping of one record *)

Lemma readable_entries_app (a b : list record) :
  readable_entries (a ++ b) = (readable_entries a ++ readable_entries b)%list.
Proof. unfold readable_entries. apply omap_app. Qed.

Lemma readable_entries_cons (i : record) (data : list record) :
  readable_entries (i :: data)
  = match parse_entry i with
    | inr e => e :: readable_entries data
    | inl _ => readable_entries data
    end.
Proof. unfold readable_entries. simpl. destruct (parse_entry i); reflexivity. Qed.

(** C3 (amended): for every raw record whose timestamp and primary flux
    parse, the sample's [observed_flux] is the primary flux when the
    secondary field is absent and the parsed secondary field when it is
    present and readable; when it is present and unreadable the record is
    passed over, the output being that of the input without it.  A record
    that maps to a sample has that sample in the output. *)
Theorem parse_entry_observed_flux
    (i : record) (tag fv : pyval) (t : datetime) (f : float) :
  i !! "time_tag" = Some tag -> timeConvert (py_str tag) = ok t ->
  i !! "flux" = Some fv -> py_float fv = ok f ->
  (i !! "observed_flux" = None ->
     parse_entry i = ok {| time_utc := t; flux := f; observed_flux := f |}) /\
  (forall v o, i !! "observed_flux" = Some v -> py_float v = ok o ->
     parse_entry i = ok {| time_utc := t; flux := f; observed_flux := o |}) /\
  (forall v err, i !! "observed_flux" = Some v -> py_float v = raise err ->
     forall before after time_key flux_key,
       split_entries (before ++ i :: after) time_key flux_key
       = split_entries (before ++ after) time_key flux_key) /\
  (forall e, parse_entry i = ok e ->
     forall before after time_key flux_key,
       exists out, split_entries (before ++ i :: after) time_key flux_key = ok out /\ e ∈ out).
Proof.
  intros Htag Ht Hfv Hf.
  assert (Hstep : parse_entry i =
                  let* obs := py_float (dict_get i "observed_flux" (PFloat f)) in
                  ok {| time_utc := t; flux := f; observed_flux := obs |}).
  { unfold parse_entry, getitem. rewrite Htag. simpl. rewrite Ht. simpl.
    rewrite Hfv. simpl. rewrite Hf. reflexivity. }
  split; [|split; [|split]].
  - intros Hnone. rewrite Hstep. unfold dict_get. rewrite Hnone. reflexivity.
  - intros v o Hv Ho. rewrite Hstep. unfold dict_get. rewrite Hv. simpl.
    rewrite Ho. reflexivity.
  - intros v err Hv Herr before after tk fk.
    rewrite !split_entries_eq, !readable_entries_app, readable_entries_cons.
    rewrite Hstep. unfold dict_get. rewrite Hv. simpl. rewrite Herr. reflexivity.
  - intros e He before after tk fk.
    exists (sort_by_instant (readable_entries (before ++ i :: after))).
    split; [apply split_entries_eq|].
    rewrite sort_by_instant_perm, readable_entries_app, readable_entries_cons, He.
    apply elem_of_app. right. apply elem_of_cons. left. reflexivity.
Qed.

Lemma parse_entry_observed_flux_witness :
  parse_entry record_plain
  = ok {| time_utc := t_2026_01_17; flux := 1e-6; observed_flux := 1e-6 |}.
Proof.
  apply (proj1 (parse_entry_observed_flux record_plain
                  (PStr "2026-01-17T00:00:00Z") (PFloat 1e-6) t_2026_01_17 1e-6%float
                  eq_refl eq_refl eq_refl eq_refl)).
  reflexivity.
Defined.

(** C3 as stated fails: this record has a parseable timestamp and primary
    flux and an unreadable secondary flux; no sample with the primary flux
    as [observed_flux] is produced, the record is skipped. *)
Lemma unreadable_observed_flux_is_skipped :
  timeConvert "2026-01-17T00:00:00Z" = ok t_2026_01_17 /\
  record_unreadable_observed !! "flux" = Some (PFloat 1e-6) /\
  record_unreadable_observed !! "observed_flux" = Some (PStr "n/a") /\
  succeeded (py_float (PStr "n/a")) = false /\
  split_entries [record_unreadable_observed] "time_tag" "flux" = ok [] /\
  ~ (exists out e, split_entries [record_unreadable_observed] "time_tag" "flux" = ok out
                   /\ e ∈ out /\ observed_flux e = 1e-6%float).
Proof.
  assert (H : split_entries [record_unreadable_observed] "time_tag" "flux" = ok [])
    by (vm_compute; reflexivity).
  repeat split; try (vm_compute; reflexivity).
  intros (out & e & Hout & Hin & _). rewrite H in Hout.
  injection Hout as <-. inversion Hin.
Qed.
(** ** Window selection *)

Lemma last_entry_in (first dflt : xrayEntry) (rest : list xrayEntry) :
  last_entry (first :: rest) dflt ∈ first :: rest.
Proof.
  unfold last_entry. revert first. induction rest as [|y rest IH]; intros first.
  - simpl. apply elem_of_cons. left. reflexivity.
  - apply elem_of_cons. right. apply (IH y).
Qed.

Lemma sorted_last_latest (first dflt : xrayEntry) (rest : list xrayEntry) :
  StronglySorted time_le (first :: rest) ->
  forall e, e ∈ first :: rest -> instant e <= instant (last_entry (first :: rest) dflt).
Proof.
  unfold last_entry. revert first. induction rest as [|y rest IH]; intros first Hs e He.
  - apply elem_of_cons in He as [->|He]; [simpl; lia | inversion He].
  - apply StronglySorted_inv in Hs as [Hs Hall].
    apply elem_of_cons in He as [->|He].
    + change (List.last (first :: y :: rest) dflt) with (List.last (y :: rest) dflt).
      rewrite Forall_forall in Hall.
      apply (Hall (List.last (y :: rest) dflt)). apply (last_entry_in y dflt rest).
    + apply (IH y Hs e He).
Qed.

Lemma window_utc (start stop : datetime) (entries : list xrayEntry) :
  tzinfo start = Some 0 -> tzinfo stop = Some 0 -> Forall is_utc entries ->
  window start stop entries
  = ok (filter (fun e => wall start <= instant e /\ instant e <= wall stop) entries).
Proof.
  intros Hstart Hstop Hall. induction Hall as [|i rest Hi Hall IH]; [reflexivity|].
  simpl. rewrite (dt_le_utc start (time_utc i) Hstart Hi). simpl.
  rewrite filter_cons. fold (instant i).
  destruct (Z.leb_spec (wall start) (instant i)) as [Hlo|Hlo].
  - rewrite (dt_le_utc (time_utc i) stop Hi Hstop). simpl. rewrite IH. simpl.
    fold (instant i).
    destruct (Z.leb_spec (instant i) (wall stop)) as [Hhi|Hhi];
      case_decide; try reflexivity; lia.
  - simpl. rewrite IH. simpl. case_decide; [lia | reflexivity].
Qed.

Lemma getLastNHoras_timedelta_fails
    (first : xrayEntry) (rest : list xrayEntry) (hours : pynum) (err : exn) :
  timedelta_hours hours = raise err -> getLastNHoras (first :: rest) hours = raise err.
Proof. intros H. unfold getLastNHoras. cbv zeta. rewrite H. reflexivity. Qed.

Lemma getLastNHoras_start_out_of_range
    (first : xrayEntry) (rest : list xrayEntry) (hours : pynum) (delta : Z) :
  timedelta_hours hours = ok delta ->
  in_range (instant (last_entry (first :: rest) first) - delta) = false ->
  getLastNHoras (first :: rest) hours = raise (OverflowError "date value out of range").
Proof.
  intros Hdelta Hrange. unfold getLastNHoras. cbv zeta.
  rewrite Hdelta. cbn [rbind ok]. unfold dt_sub.
  unfold instant in Hrange. rewrite Hrange. reflexivity.
Qed.

Lemma timedelta_hours_nan (x : float) :
  is_nan x = true ->
  timedelta_hours (NFloat x) = raise (ValueError "cannot convert float NaN to integer").
Proof. intros H. unfold timedelta_hours. rewrite (is_nan_spec x H). reflexivity. Qed.

Lemma timedelta_hours_infinity (x : float) :
  is_infinity x = true ->
  timedelta_hours (NFloat x)
  = raise (OverflowError "cannot convert float infinity to integer").
Proof.
  unfold is_infinity. rewrite FloatAxioms.eqb_spec, FloatAxioms.abs_spec.
  unfold timedelta_hours. change (Prim2SF infinity) with (S754_infinity false).
  destruct (Prim2SF x) as [s|s| |s m e]; try reflexivity;
    unfold SFeqb, SFabs; simpl; try discriminate.
Qed.

(** C4 (amended): [getLastNHoras] returns the empty list for the empty
    input, whatever hours is.  For a non-empty input with anchor the
    timestamp of its last sample: if [timedelta(hours=hours)] raises, the
    call raises the same error (ValueError for NaN, OverflowError for an
    infinite value or one beyond the timedelta range); if anchor less the
    timedelta is not a representable datetime, the call raises
    OverflowError; otherwise, for UTC timestamps, the call returns exactly
    the samples whose timestamp lies in the closed interval from anchor less
    the timedelta to anchor, in input order, and on a sequence sorted
    ascending by time the anchor is the latest timestamp.  For an integer
    number of hours the timedelta is that many hours. *)
Theorem getLastNHoras_closed_window
    (first : xrayEntry) (rest : list xrayEntry) (hours : pynum) :
  let entries := first :: rest in
  let anchor := instant (last_entry entries first) in
  getLastNHoras [] hours = ok [] /\
  (forall err, timedelta_hours hours = raise err -> getLastNHoras entries hours = raise err) /\
  (forall x, hours = NFloat x -> is_nan x = true ->
     getLastNHoras entries hours
     = raise (ValueError "cannot convert float NaN to integer")) /\
  (forall x, hours = NFloat x -> is_infinity x = true ->
     getLastNHoras entries hours
     = raise (OverflowError "cannot convert float infinity to integer")) /\
  (forall n, hours = NInt n -> n / 24 < - MAX_DELTA_DAYS \/ MAX_DELTA_DAYS < n / 24 ->
     getLastNHoras entries hours
     = raise (OverflowError "days must have magnitude <= 999999999")) /\
  (forall delta, timedelta_hours hours = ok delta -> in_range (anchor - delta) = false ->
     getLastNHoras entries hours = raise (OverflowError "date value out of range")) /\
  (forall delta, timedelta_hours hours = ok delta -> in_range (anchor - delta) = true ->
     Forall is_utc entries ->
     getLastNHoras entries hours
     = ok (filter (fun e => anchor - delta <= instant e /\ instant e <= anchor) entries)) /\
  (forall n delta, hours = NInt n -> timedelta_hours hours = ok delta ->
     delta = n * 3600000000) /\
  (StronglySorted time_le entries -> forall e, e ∈ entries -> instant e <= anchor).
Proof.
  intros entries anchor.
  split; [reflexivity|]. split; [apply getLastNHoras_timedelta_fails|].
  split; [intros x -> Hx; apply getLastNHoras_timedelta_fails, timedelta_hours_nan, Hx|].
  split; [intros x -> Hx;
          apply getLastNHoras_timedelta_fails, timedelta_hours_infinity, Hx|].
  split.
  { intros n -> Hn. apply getLastNHoras_timedelta_fails.
    unfold timedelta_hours, new_timedelta, MAX_DELTA_DAYS, US_PER_HOUR, US_PER_DAY,
      US_PER_SECOND in *.
    change (86400 * 1000000) with 86400000000. change (3600 * 1000000) with 3600000000.
    destruct (_ && _) eqn:B; [|reflexivity].
    apply andb_true_iff in B as [B1 B2]. apply Z.leb_le in B1, B2.
    exfalso. Z.div_mod_to_equations. lia. }
  split; [apply getLastNHoras_start_out_of_range|].
  split.
  { intros delta Hdelta Hrange Hutc.
    assert (Hlast : is_utc (last_entry entries first)).
    { rewrite Forall_forall in Hutc. apply Hutc. apply last_entry_in. }
    subst entries anchor. unfold getLastNHoras. cbv beta iota zeta.
    rewrite Hdelta. cbn [rbind ok]. unfold dt_sub.
    unfold instant in Hrange. rewrite Hrange. cbn [rbind ok].
    rewrite window_utc; [reflexivity | exact Hlast | exact Hlast | exact Hutc]. }
  split.
  { intros n delta -> Hdelta. unfold timedelta_hours, new_timedelta in Hdelta.
    destruct (_ && _); [|discriminate Hdelta].
    injection Hdelta as <-. reflexivity. }
  intros Hsorted. apply sorted_last_latest. exact Hsorted.
Qed.

Lemma getLastNHoras_closed_window_witness :
  getLastNHoras [sample_2026; sample_later] (NInt 2) = ok [sample_later] /\
  getLastNHoras [sample_2026; sample_later] (NFloat 3) = ok [sample_2026; sample_later] /\
  getLastNHoras [sample_2026; sample_later] (NFloat nan)
  = raise (ValueError "cannot convert float NaN to integer") /\
  getLastNHoras [sample_2026; sample_later] (NInt 24000000000)
  = raise (OverflowError "days must have magnitude <= 999999999") /\
  getLastNHoras [sample_2026; sample_later] (NInt 20000000)
  = raise (OverflowError "date value out of range").
Proof.
  pose proof (fun hours => getLastNHoras_closed_window sample_2026 [sample_later] hours)
    as H. cbv zeta in H.
  split; [|split; [|split; [|split]]].
  - refine (eq_trans (proj1 (proj2 (proj2 (proj2 (proj2 (proj2 (proj2 (H (NInt 2))))))))
                        7200000000 eq_refl eq_refl _) _).
    + repeat constructor.
    + reflexivity.
  - refine (eq_trans (proj1 (proj2 (proj2 (proj2 (proj2 (proj2 (proj2 (H (NFloat 3))))))))
                        10800000000 eq_refl eq_refl _) _).
    + repeat constructor.
    + reflexivity.
  - exact (proj1 (proj2 (proj2 (H (NFloat nan)))) nan eq_refl eq_refl).
  - apply (proj1 (proj2 (proj2 (proj2 (proj2 (H (NInt 24000000000))))))
             24000000000 eq_refl).
    right. vm_compute. reflexivity.
  - exact (proj1 (proj2 (proj2 (proj2 (proj2 (proj2 (H (NInt 20000000)))))))
             72000000000000000 eq_refl eq_refl).
Defined.

(** C4 as stated fails in two ways.  With one sample at 2026-01-17 and
    hours = 20000000 the sample lies in the closed interval, yet the window
    start falls before year 1 and the call raises instead of returning it.
    With hours = 2.0000000002, whose exact value is 4503599627820856 / 2^51
    hours, less than 7200000001 microseconds, the timedelta is rounded up to
    7200000001 microseconds, and a sample that long before the anchor is
    returned although it lies before anchor - hours. *)
Lemma getLastNHoras_window_out_of_range :
  (isoformat (time_utc sample_2026) = "2026-01-17T00:00:00+00:00" /\
   timedelta_hours (NInt 20000000) = ok 72000000000000000 /\
   filter (fun e => instant sample_2026 - 72000000000000000 <= instant e
                    /\ instant e <= instant sample_2026) [sample_2026] = [sample_2026] /\
   getLastNHoras [sample_2026] (NInt 20000000)
   = raise (OverflowError "date value out of range")) /\
  (Prim2SF 2.0000000002 = S754_finite false 4503599627820856 (-51) /\
   4503599627820856 * 3600000000 < 7200000001 * 2 ^ 51 /\
   instant sample_2026 - instant sample_before_window = 7200000001 /\
   getLastNHoras [sample_before_window; sample_2026] (NFloat 2.0000000002)
   = ok [sample_before_window; sample_2026]).
Proof. repeat split; vm_compute; reflexivity. Qed.

(** ** Summary *)

(** C8: [summary] fails, with the ValueError "No entries available." raised
    to the caller, if and only if the sample sequence is empty; for every
    non-empty sequence it returns a summary. *)
Theorem summary_fails_iff_empty (entries : list xrayEntry) :
  (summary entries = raise (ValueError "No entries available.") <-> entries = []) /\
  (succeeded (summary entries) = false <-> entries = []).
Proof.
  destruct entries as [|first rest]; simpl.
  - split; split; reflexivity.
  - split; split; discriminate.
Qed.

Lemma summary_fails_iff_empty_witness :
  summary [] = raise (ValueError "No entries available.") /\
  succeeded (summary [sample_2026]) = true.
Proof.
  split.
  - apply (proj1 (summary_fails_iff_empty [])). reflexivity.
  - destruct (succeeded (summary [sample_2026])) eqn:H; [reflexivity|].
    apply (proj2 (summary_fails_iff_empty [sample_2026])) in H. discriminate H.
Defined.

(** C2 (evaluation of the code where the claim fails): for every non-empty
    sequence [summary] returns the first sample's time as start, the last
    sample's time as end, the count, the last sample's flux and its class,
    and the class of the maximum flux; under "max_flux" it stores that class
    label again, a string, not the maximum flux value the claim names.  On
    the single sample of flux 5.5e-6 the field is "1e-08550.00" while
    "current_flux" is 5.5e-6. *)
Theorem summary_fields (first : xrayEntry) (rest : list xrayEntry) :
  let entries := first :: rest in
  let latest := last_entry entries first in
  let top := py_max (flux first) (map flux rest) in
  (exists d,
     summary entries = ok d /\
     d !! "start_time_utc" = Some (PStr (isoformat (time_utc first))) /\
     d !! "end_time_utc" = Some (PStr (isoformat (time_utc latest))) /\
     d !! "Amount of nodes(measurements)" = Some (PInt (Z.of_nat (length entries))) /\
     d !! "current_flux" = Some (PFloat (flux latest)) /\
     d !! "current_class" = Some (PStr (flare_class (flux latest))) /\
     d !! "max_class" = Some (PStr (flare_class top)) /\
     d !! "max_flux" = Some (PStr (flare_class top)) /\
     d !! "max_flux" <> Some (PFloat top)) /\
  (exists d,
     summary [sample_C5] = ok d /\
     d !! "max_flux" = Some (PStr "1e-08550.00") /\
     d !! "current_flux" = Some (PFloat 5.5e-6) /\
     d !! "Amount of nodes(measurements)" = Some (PInt 1)).
Proof.
  intros entries latest top. split.
  - eexists. split; [reflexivity|].
    cbn [list_to_map foldr uncurry]. unfold uncurry. simpl fst. simpl snd.
    repeat split; try (by simplify_map_eq).
  - eexists. split; [reflexivity|]. repeat split; vm_compute; reflexivity.
Qed.

(** ** Calendar: [ymd2ord] undoes [ord2ymd] *)

Lemma month_day_ok_all (leap : bool) (r : Z) :
  0 <= r < 365 -> month_day_ok leap r = true.
Proof.
  intros Hr.
  assert (H : forallb (fun k => month_day_ok true k && month_day_ok false k)
                (seqZ 0 365) = true) by (vm_compute; reflexivity).
  rewrite forallb_forall in H.
  specialize (H r). rewrite <- list_elem_of_In, elem_of_seqZ in H.
  specialize (H ltac:(lia)). apply andb_true_iff in H as [Ht Hf].
  destruct leap; assumption.
Qed.

(** A year written as 400a + 100b + 4c + d + 1. *)
Lemma days_before_year_cycles (a b c d : Z) :
  0 <= a -> 0 <= b <= 3 -> 0 <= c <= 24 -> 0 <= d <= 3 ->
  days_before_year (400 * a + 100 * b + 4 * c + d + 1)
  = 146097 * a + 36524 * b + 1461 * c + 365 * d.
Proof.
  intros Ha Hb Hc Hd. unfold days_before_year.
  replace (400 * a + 100 * b + 4 * c + d + 1 - 1) with (400 * a + 100 * b + 4 * c + d) by lia.
  rewrite <- (Z.div_unique (400 * a + 100 * b + 4 * c + d) 4 (100 * a + 25 * b + c) d) by lia.
  rewrite <- (Z.div_unique (400 * a + 100 * b + 4 * c + d) 100 (4 * a + b) (4 * c + d)) by lia.
  rewrite <- (Z.div_unique (400 * a + 100 * b + 4 * c + d) 400 a (100 * b + 4 * c + d)) by lia.
  lia.
Qed.

Lemma is_leap_cycles (a b c d : Z) :
  0 <= a -> 0 <= b <= 3 -> 0 <= c <= 24 -> 0 <= d <= 3 ->
  is_leap (400 * a + 100 * b + 4 * c + d + 1)
  = (d =? 3) && (negb (c =? 24) || (b =? 3)).
Proof.
  intros Ha Hb Hc Hd. unfold is_leap.
  destruct (Z.eqb_spec d 3) as [->|Hd3].
  - rewrite <- (Z.mod_unique (400 * a + 100 * b + 4 * c + 3 + 1) 4 (100 * a + 25 * b + c + 1) 0)
      by lia.
    simpl. destruct (Z.eqb_spec c 24) as [->|Hc24].
    + rewrite <- (Z.mod_unique (400 * a + 100 * b + 4 * 24 + 3 + 1) 100 (4 * a + b + 1) 0) by lia.
      simpl. destruct (Z.eqb_spec b 3) as [->|Hb3].
      * rewrite <- (Z.mod_unique (400 * a + 100 * 3 + 4 * 24 + 3 + 1) 400 (a + 1) 0) by lia.
        reflexivity.
      * rewrite <- (Z.mod_unique (400 * a + 100 * b + 4 * 24 + 3 + 1) 400 a (100 * b + 100))
          by lia.
        destruct (Z.eqb_spec (100 * b + 100) 0); [lia | reflexivity].
    + rewrite <- (Z.mod_unique (400 * a + 100 * b + 4 * c + 3 + 1) 100 (4 * a + b) (4 * c + 4))
        by lia.
      destruct (Z.eqb_spec (4 * c + 4) 0); [lia | reflexivity].
  - rewrite <- (Z.mod_unique (400 * a + 100 * b + 4 * c + d + 1) 4 (100 * a + 25 * b + c) (d + 1))
      by lia.
    destruct (Z.eqb_spec (d + 1) 0); [lia | reflexivity].
Qed.

Lemma ord2ymd_spec (n : Z) :
  1 <= n <= MAXORDINAL ->
  let '(y, m, d) := ord2ymd n in
  1 <= y <= 9999 /\ 1 <= m <= 12 /\ 1 <= d <= days_in_month y m /\ ymd2ord y m d = n.
Proof.
  unfold MAXORDINAL. intros Hn. unfold ord2ymd, DI400Y, DI100Y, DI4Y.
  set (n0 := n - 1).
  set (a := n0 / 146097). set (r400 := n0 mod 146097).
  set (b := r400 / 36524). set (r100 := r400 mod 36524).
  set (c := r100 / 1461). set (r4 := r100 mod 1461).
  set (d := r4 / 365). set (r1 := r4 mod 365).
  assert (E400 : n0 = 146097 * a + r400 /\ 0 <= r400 < 146097)
    by (split; [apply Z.div_mod; lia | apply Z.mod_pos_bound; lia]).
  assert (E100 : r400 = 36524 * b + r100 /\ 0 <= r100 < 36524)
    by (split; [apply Z.div_mod; lia | apply Z.mod_pos_bound; lia]).
  assert (E4 : r100 = 1461 * c + r4 /\ 0 <= r4 < 1461)
    by (split; [apply Z.div_mod; lia | apply Z.mod_pos_bound; lia]).
  assert (E1 : r4 = 365 * d + r1 /\ 0 <= r1 < 365)
    by (split; [apply Z.div_mod; lia | apply Z.mod_pos_bound; lia]).
  assert (Hn0 : n = n0 + 1 /\ 0 <= n0 < 3652059) by (unfold n0; lia).
  clearbody a r400 b r100 c r4 d r1 n0.
  assert (Ba : 0 <= a <= 24) by lia.
  assert (Bb : 0 <= b <= 4) by lia.
  assert (Bc : 0 <= c <= 24) by lia.
  assert (Bd : 0 <= d <= 4) by lia.
  destruct ((d =? 4) || (b =? 4)) eqn:Hspecial.
  - (* the last day of a leap year *)
    assert (Hy : exists b' c',
               a * 400 + 1 + b * 100 + c * 4 + d - 1 = 400 * a + 100 * b' + 4 * c' + 3 + 1
               /\ 0 <= b' <= 3 /\ 0 <= c' <= 24 /\ (c' <> 24 \/ b' = 3)
               /\ n0 = 146097 * a + 36524 * b' + 1461 * c' + 1460).
    { apply orb_true_iff in Hspecial as [H|H]; apply Z.eqb_eq in H.
      - exists b, c. lia.
      - exists 3, 24. lia. }
    destruct Hy as (b' & c' & -> & Bb' & Bc' & Hleap & Hn0').
    unfold ymd2ord, days_before_month, days_in_month.
    rewrite days_before_year_cycles, is_leap_cycles by lia.
    assert (Hl : (3 =? 3) && (negb (c' =? 24) || (b' =? 3)) = true).
    { simpl. destruct Hleap as [H| ->]; [|apply orb_true_r].
      destruct (Z.eqb_spec c' 24); [contradiction | reflexivity]. }
    rewrite Hl. simpl. lia.
  - apply orb_false_iff in Hspecial as [Hd4 Hb4].
    apply Z.eqb_neq in Hd4, Hb4.
    replace (a * 400 + 1 + b * 100 + c * 4 + d) with (400 * a + 100 * b + 4 * c + d + 1) by lia.
    pose proof (month_day_ok_all ((d =? 3) && (negb (c =? 24) || (b =? 3))) r1
                  ltac:(lia)) as Hmd.
    unfold month_day_ok in Hmd.
    destruct (month_of_yday _ r1) as [m day].
    rewrite !andb_true_iff in Hmd. destruct Hmd as [[[[Hm1 Hm2] Hd1] Hd2] Hsum].
    apply Z.leb_le in Hm1, Hm2, Hd1, Hd2. apply Z.eqb_eq in Hsum.
    unfold ymd2ord, days_before_month, days_in_month.
    rewrite days_before_year_cycles, is_leap_cycles by lia.
    split; [lia|]. split; [lia|]. split; [|lia].
    split; [lia|]. revert Hd2.
    destruct ((m =? 2) && _) eqn:E; [|lia].
    apply andb_true_iff in E as [E _]. apply Z.eqb_eq in E. subst m. simpl. lia.
Qed.
(** ** Reading back what [isoformat] writes *)

Lemma char_digit_digit_char (d : Z) : 0 <= d <= 9 -> char_digit (digit_char d) = Some d.
Proof.
  intros Hd.
  assert (H : d = 0 \/ d = 1 \/ d = 2 \/ d = 3 \/ d = 4 \/ d = 5 \/ d = 6 \/ d = 7
              \/ d = 8 \/ d = 9) by lia.
  repeat destruct H as [->|H]; try reflexivity. subst d. reflexivity.
Qed.

Lemma parse_digits_snoc (w : nat) (cs rest : list ascii) (c : ascii) (acc v d : Z) :
  parse_digits w cs acc = Some (v, c :: rest) -> char_digit c = Some d ->
  parse_digits (S w) cs acc = Some (10 * v + d, rest).
Proof.
  revert cs acc. induction w as [|w IH]; intros cs acc H Hc.
  - simpl in H. injection H as <- ->. simpl. rewrite Hc. reflexivity.
  - destruct cs as [|c0 cs]; [discriminate H|].
    change (parse_digits (S w) (c0 :: cs) acc)
      with (match char_digit c0 with
            | Some d0 => parse_digits w cs (10 * acc + d0)
            | None => None
            end) in H.
    change (parse_digits (S (S w)) (c0 :: cs) acc)
      with (match char_digit c0 with
            | Some d0 => parse_digits (S w) cs (10 * acc + d0)
            | None => None
            end).
    destruct (char_digit c0) as [d0|]; [|discriminate H].
    apply IH; assumption.
Qed.

Lemma parse_digits_zfill (w : nat) (n acc : Z) (rest : list ascii) :
  0 <= n < 10 ^ Z.of_nat w ->
  parse_digits w (zfill_chars w n ++ rest) acc = Some (acc * 10 ^ Z.of_nat w + n, rest).
Proof.
  revert n rest. induction w as [|w IH]; intros n rest Hn.
  - simpl in *. f_equal. f_equal. lia.
  - rewrite Nat2Z.inj_succ, Z.pow_succ_r in * by lia.
    cbn [zfill_chars]. rewrite <- app_assoc. cbn [app].
    assert (Hq : 0 <= n / 10 < 10 ^ Z.of_nat w).
    { split; [apply Z.div_pos; lia | apply Z.div_lt_upper_bound; lia]. }
    rewrite (parse_digits_snoc w _ rest (digit_char (n mod 10)) acc
               (acc * 10 ^ Z.of_nat w + n / 10) (n mod 10)).
    + f_equal. f_equal. pose proof (Z.div_mod n 10 ltac:(lia)). lia.
    + apply IH. exact Hq.
    + apply char_digit_digit_char. pose proof (Z.mod_pos_bound n 10 ltac:(lia)). lia.
Qed.

Lemma chars_text (l : list ascii) : chars (text l) = l.
Proof. apply list_ascii_of_string_of_list_ascii. Qed.

Lemma text_chars (s : string) : text (chars s) = s.
Proof. apply string_of_list_ascii_of_string. Qed.

Lemma chars_append (a b : string) : chars (a +:+ b) = (chars a ++ chars b)%list.
Proof.
  induction a as [|c a IH]; [reflexivity|].
  unfold chars in *. simpl. rewrite IH. reflexivity.
Qed.

Lemma endswith_Z_plus_offset (l : list ascii) :
  endswith (text (l ++ chars "+00:00")) "Z" = false.
Proof.
  unfold endswith. rewrite chars_text. apply bool_decide_eq_false.
  change (chars "Z") with ([] ++ ["Z"%char])%list.
  change (chars "+00:00") with (chars "+00:0" ++ ["0"%char])%list.
  rewrite app_assoc. intros H. apply suffix_snoc_inv_1 in H. discriminate H.
Qed.

(** The fields of a time of day, and the instant they add up to. *)
Lemma time_of_day_fields (w : Z) :
  0 <= w ->
  let rem := w mod US_PER_DAY in
  let hh := rem / US_PER_HOUR in
  let mi := rem mod US_PER_HOUR / US_PER_MINUTE in
  let ss := rem mod US_PER_MINUTE / US_PER_SECOND in
  let us := rem mod US_PER_SECOND in
  0 <= hh <= 23 /\ 0 <= mi <= 59 /\ 0 <= ss <= 59 /\ 0 <= us <= 999999 /\
  w / US_PER_DAY * US_PER_DAY + hh * US_PER_HOUR + mi * US_PER_MINUTE
    + ss * US_PER_SECOND + us = w.
Proof.
  unfold US_PER_DAY, US_PER_HOUR, US_PER_MINUTE, US_PER_SECOND. intros Hw. cbv zeta.
  change (86400 * 1000000) with 86400000000.
  change (3600 * 1000000) with 3600000000.
  change (60 * 1000000) with 60000000.
  Z.div_mod_to_equations. lia.
Qed.

Lemma parse_2_digits (n : Z) (rest : list ascii) :
  0 <= n <= 99 -> parse_digits 2 (zfill_chars 2 n ++ rest) 0 = Some (n, rest).
Proof. intros H. rewrite parse_digits_zfill by (simpl; lia). reflexivity. Qed.

Lemma parse_4_digits (n : Z) (rest : list ascii) :
  0 <= n <= 9999 -> parse_digits 4 (zfill_chars 4 n ++ rest) 0 = Some (n, rest).
Proof. intros H. rewrite parse_digits_zfill by (simpl; lia). reflexivity. Qed.

Lemma parse_6_digits (n : Z) (rest : list ascii) :
  0 <= n <= 999999 -> parse_digits 6 (zfill_chars 6 n ++ rest) 0 = Some (n, rest).
Proof. intros H. rewrite parse_digits_zfill by (simpl; lia). reflexivity. Qed.

Lemma parse_isoformat_fields (y m d hh mi ss us : Z) :
  0 <= y <= 9999 -> 0 <= m <= 99 -> 0 <= d <= 99 -> 0 <= hh <= 99 -> 0 <= mi <= 99 ->
  0 <= ss <= 99 -> 0 <= us <= 999999 ->
  parse_isoformat (iso_chars y m d hh mi ss us (Some 0))
  = Some (y, m, d, (hh, mi, ss, us), Some 0).
Proof.
  intros Hy Hm Hd Hhh Hmi Hss Hus. unfold iso_chars.
  change (format_offset (Some 0)) with (chars "+00:00").
  unfold parse_isoformat, parse_hh_mm_ss_ff.
  rewrite parse_4_digits by assumption.
  cbn [mbind option_bind chars list_ascii_of_string app expect Ascii.eqb Bool.eqb].
  rewrite parse_2_digits by assumption.
  cbn [mbind option_bind chars list_ascii_of_string app expect Ascii.eqb Bool.eqb].
  rewrite parse_2_digits by assumption.
  cbn [mbind option_bind chars list_ascii_of_string app expect Ascii.eqb Bool.eqb].
  rewrite parse_2_digits by assumption.
  cbn [mbind option_bind chars list_ascii_of_string app expect Ascii.eqb Bool.eqb].
  rewrite parse_2_digits by assumption.
  cbn [mbind option_bind chars list_ascii_of_string app expect Ascii.eqb Bool.eqb].
  rewrite parse_2_digits by assumption.
  cbn [mbind option_bind chars list_ascii_of_string app expect Ascii.eqb Bool.eqb].
  destruct (Z.eqb_spec us 0) as [->|Hne].
  - reflexivity.
  - cbn [app expect Ascii.eqb Bool.eqb]. unfold parse_fraction.
    rewrite parse_6_digits by assumption. reflexivity.
Qed.

Lemma iso_chars_not_Z (y m d hh mi ss us : Z) :
  endswith (text (iso_chars y m d hh mi ss us (Some 0))) "Z" = false.
Proof.
  unfold iso_chars. change (format_offset (Some 0)) with (chars "+00:00").
  rewrite !app_assoc. apply endswith_Z_plus_offset.
Qed.

Lemma new_datetime_ok (y m d hh mi ss us : Z) (tz : option Z) :
  1 <= y <= 9999 -> 1 <= m <= 12 -> 1 <= d <= days_in_month y m ->
  0 <= hh <= 23 -> 0 <= mi <= 59 -> 0 <= ss <= 59 -> 0 <= us <= 999999 ->
  new_datetime y m d hh mi ss us tz
  = ok {| wall := (ymd2ord y m d - 1) * US_PER_DAY + hh * US_PER_HOUR
                  + mi * US_PER_MINUTE + ss * US_PER_SECOND + us;
          tzinfo := tz |}.
Proof.
  intros. unfold new_datetime.
  rewrite !(proj2 (Z.leb_le _ _)) by lia. reflexivity.
Qed.

Lemma days_in_month_le_31 (y m : Z) : days_in_month y m <= 31.
Proof.
  unfold days_in_month, DAYS_IN_MONTH. destruct (_ && _); [lia|].
  destruct m as [|[[[[]|[]|]|[[]|[]|]|]|[[[]|[]|]|[[]|[]|]|]|]|]; lia.
Qed.

Lemma fromisoformat_iso_chars (y m d hh mi ss us : Z) :
  1 <= y <= 9999 -> 1 <= m <= 12 -> 1 <= d <= days_in_month y m ->
  0 <= hh <= 23 -> 0 <= mi <= 59 -> 0 <= ss <= 59 -> 0 <= us <= 999999 ->
  fromisoformat (text (iso_chars y m d hh mi ss us (Some 0)))
  = ok {| wall := (ymd2ord y m d - 1) * US_PER_DAY + hh * US_PER_HOUR
                  + mi * US_PER_MINUTE + ss * US_PER_SECOND + us;
          tzinfo := Some 0 |}.
Proof.
  intros Hy Hm Hd Hhh Hmi Hss Hus. pose proof (days_in_month_le_31 y m) as Hd31.
  unfold fromisoformat. rewrite chars_text.
  rewrite parse_isoformat_fields by lia.
  change (new_timezone 0) with (ok 0). cbn [rbind ok].
  apply new_datetime_ok; assumption.
Qed.

Lemma ordinal_in_range (w : Z) :
  0 <= w <= MAX_WALL -> 1 <= w / US_PER_DAY + 1 <= MAXORDINAL.
Proof.
  unfold MAX_WALL, MAXORDINAL, US_PER_DAY, US_PER_SECOND.
  change (86400 * 1000000) with 86400000000.
  intros H. Z.div_mod_to_equations. lia.
Qed.

(** C9: for every UTC timestamp t (a datetime of years 1 to 9999 with
    tzinfo UTC), [timeConvert] applied to the ISO-8601 text with explicit
    offset that the export writes for t returns t exactly; and for every
    string ending in Z, [timeConvert] gives what it gives for the same string
    with the Z replaced by +00:00. *)
Theorem timeConvert_isoformat_roundtrip :
  (forall t : datetime,
     tzinfo t = Some 0 -> in_range (wall t) = true -> timeConvert (isoformat t) = ok t) /\
  (forall s : string, timeConvert (s +:+ "Z") = timeConvert (s +:+ "+00:00")).
Proof.
  split.
  - intros [w tz]. cbn [wall tzinfo]. intros -> Hrange.
    unfold in_range in Hrange. apply andb_true_iff in Hrange as [Hlo Hhi].
    apply Z.leb_le in Hlo, Hhi.
    unfold isoformat. cbn [wall tzinfo]. cbv zeta.
    pose proof (time_of_day_fields w Hlo) as Htod. cbv zeta in Htod.
    destruct Htod as (Hhh & Hmi & Hss & Hus & Hsum).
    pose proof (ord2ymd_spec _ (ordinal_in_range w (conj Hlo Hhi))) as Hymd.
    destruct (ord2ymd (w / US_PER_DAY + 1)) as [[y m] d].
    destruct Hymd as (Hy & Hm & Hd & Hback).
    unfold timeConvert. rewrite iso_chars_not_Z.
    rewrite fromisoformat_iso_chars by assumption.
    cbn [rbind ok tzinfo]. unfold astimezone_utc. cbn [tzinfo Z.eqb].
    unfold ok. f_equal. f_equal. rewrite Hback. lia.
  - intros s. unfold timeConvert.
    assert (Hz : endswith (s +:+ "Z") "Z" = true).
    { unfold endswith. apply bool_decide_eq_true.
      rewrite chars_append. apply suffix_app_r. reflexivity. }
    assert (Hd : drop_last (s +:+ "Z") = s).
    { unfold drop_last. rewrite chars_append, length_app.
      change (length (chars "Z")) with 1%nat.
      replace (length (chars s) + 1 - 1)%nat with (length (chars s)) by lia.
      rewrite take_app_length. apply text_chars. }
    assert (Ho : endswith (s +:+ "+00:00") "Z" = false).
    { rewrite <- (text_chars (s +:+ "+00:00")).
      rewrite chars_append. apply endswith_Z_plus_offset. }
    rewrite Hz, Hd, Ho. reflexivity.
Qed.

Lemma timeConvert_isoformat_roundtrip_witness :
  timeConvert (isoformat t_2026_01_17) = ok t_2026_01_17.
Proof.
  apply (proj1 timeConvert_isoformat_roundtrip t_2026_01_17); reflexivity.
Defined.

(** * Further properties of the code *)

(** ** [flare_class] over all floats *)

Lemma not_reached_above (x o : float) :
  (1e-8 <=? x)%float = false -> (1e-8 <=? o)%float = true -> (o <=? x)%float = false.
Proof.
  intros Hx Ho. destruct (o <=? x)%float eqn:E; [|reflexivity].
  rewrite (leb_trans _ _ _ Ho E) in Hx. discriminate Hx.
Qed.

(** X1: for every float, NaN and the infinities included, [flare_class] is
    "A0.00" when flux <= 0, the text "1e-08" followed by flux / 1e-8 when
    flux >= 1e-8, and "A" followed by flux / 1e-8 in every other case; the
    rows B, C, M and X of the table are never selected. *)
Theorem flare_class_cases (x : float) :
  flare_class x
  = (if (x <=? 0)%float then "A0.00"
     else if (1e-8 <=? x)%float then "1e-08" +:+ format_2f (x / 1e-8)%float
     else "A" +:+ format_2f (x / 1e-8)%float) /\
  flare_scan x FLARE_OFFSETS = flare_scan x [("A", 1e-8%float)].
Proof.
  assert (Hscan : flare_scan x FLARE_OFFSETS = flare_scan x [("A", 1e-8%float)]).
  { cbn [FLARE_OFFSETS flare_scan].
    destruct (1e-8 <=? x)%float eqn:HA; [reflexivity|].
    rewrite !(not_reached_above x) by (exact HA || reflexivity). reflexivity. }
  split; [|exact Hscan].
  unfold flare_class. rewrite Hscan. cbn [flare_scan].
  destruct (x <=? 0)%float; [reflexivity|].
  destruct (1e-8 <=? x)%float; [|reflexivity].
  rewrite repr_1e_8. reflexivity.
Qed.

(** ** NaN and the alert *)

(** X2: when the first sample's flux is NaN, [max] keeps it whatever
    follows: the maximum [summary] works with is that NaN and
    [x_flare_Alert] prints nothing, even if a later sample is of class X. *)
Theorem nan_first_masks_alert (first : xrayEntry) (rest : list xrayEntry) :
  is_nan (flux first) = true ->
  max_flux_of (first :: rest) = Some (flux first) /\
  x_flare_Alert (first :: rest) = [] /\
  alert_raised (first :: rest) = false.
Proof.
  intros H.
  assert (Hmax : py_max (flux first) (map flux rest) = flux first) by (apply py_max_nan, H).
  assert (Ha : alert_raised (first :: rest) = false).
  { rewrite alert_raised_eq, Hmax. apply leb_nan, H. }
  split; [unfold max_flux_of; rewrite Hmax; reflexivity|].
  split; [|exact Ha].
  unfold alert_raised in Ha. apply bool_decide_eq_false in Ha.
  destruct (x_flare_Alert (first :: rest)) as [|line lines]; [reflexivity|].
  exfalso. apply Ha. discriminate.
Qed.

Lemma nan_first_masks_alert_witness :
  alert_raised [{| time_utc := t_2026_01_17; flux := nan; observed_flux := nan |}; sample_X2]
  = false.
Proof.
  apply (nan_first_masks_alert
           {| time_utc := t_2026_01_17; flux := nan; observed_flux := nan |} [sample_X2]).
  reflexivity.
Defined.

Lemma py_max_app (a : float) (l1 l2 : list float) :
  py_max a (l1 ++ l2) = py_max (py_max a l1) l2.
Proof. unfold py_max. apply fold_left_app. Qed.

Lemma py_max_keeps_reach (c a : float) (l : list float) :
  (c <=? a)%float = true -> (c <=? py_max a l)%float = true.
Proof.
  unfold py_max. revert a. induction l as [|v l IH]; intros a H; simpl; [exact H|].
  apply IH. destruct (a <? v)%float eqn:E; [|exact H].
  exact (leb_trans _ _ _ H (ltb_leb _ _ E)).
Qed.

(** X3: samples appended to a slice never silence the alert: if
    [x_flare_Alert] prints for a list, it prints for every extension of that
    list at the end. *)
Theorem alert_survives_append (entries more : list xrayEntry) :
  alert_raised entries = true -> alert_raised (entries ++ more) = true.
Proof.
  destruct entries as [|first rest]; [discriminate|].
  change ((first :: rest) ++ more)%list with (first :: (rest ++ more))%list.
  rewrite !alert_raised_eq, map_app, py_max_app. unfold is_x_flare.
  apply py_max_keeps_reach.
Qed.

Lemma alert_survives_append_witness :
  alert_raised ([sample_X2] ++ [sample_2026; sample_C5]) = true.
Proof. apply (alert_survives_append [sample_X2] [sample_2026; sample_C5]). reflexivity. Defined.

(** ** [timeConvert]: what it returns *)

Lemma days_before_year_bounds (y : Z) :
  1 <= y <= 9999 -> 0 <= days_before_year y /\ (y <= 9998 -> days_before_year y <= 3651329).
Proof.
  intros Hy. unfold days_before_year. cbv zeta.
  Z.div_mod_to_equations. lia.
Qed.

Lemma days_before_month_day (y m d : Z) :
  1 <= m <= 12 -> 1 <= d <= days_in_month y m ->
  1 <= days_before_month y m + d <= (if is_leap y then 366 else 365).
Proof.
  unfold days_before_month, days_in_month. intros Hm Hd.
  assert (H : m = 1 \/ m = 2 \/ m = 3 \/ m = 4 \/ m = 5 \/ m = 6 \/ m = 7 \/ m = 8
              \/ m = 9 \/ m = 10 \/ m = 11 \/ m = 12) by lia.
  destruct (is_leap y);
    repeat (destruct H as [->|H]; [simpl in *; lia|]); subst m; simpl in *; lia.
Qed.

Lemma ymd2ord_bounds (y m d : Z) :
  1 <= y <= 9999 -> 1 <= m <= 12 -> 1 <= d <= days_in_month y m ->
  1 <= ymd2ord y m d <= MAXORDINAL.
Proof.
  intros Hy Hm Hd. unfold ymd2ord, MAXORDINAL.
  pose proof (days_before_year_bounds y Hy) as [Hlo Hhi].
  pose proof (days_before_month_day y m d Hm Hd) as Hmd.
  destruct (Z.eq_dec y 9999) as [->|Hne].
  - change (is_leap 9999) with false in Hmd.
    change (days_before_year 9999) with 3651694. lia.
  - specialize (Hhi ltac:(lia)). destruct (is_leap y); lia.
Qed.

Lemma new_datetime_inv (y m d hh mi ss us : Z) (tz : option Z) (r : datetime) :
  new_datetime y m d hh mi ss us tz = ok r ->
  (1 <= y <= 9999 /\ 1 <= m <= 12 /\ 1 <= d <= days_in_month y m /\
   0 <= hh <= 23 /\ 0 <= mi <= 59 /\ 0 <= ss <= 59 /\ 0 <= us <= 999999) /\
  r = {| wall := (ymd2ord y m d - 1) * US_PER_DAY + hh * US_PER_HOUR
                 + mi * US_PER_MINUTE + ss * US_PER_SECOND + us;
         tzinfo := tz |}.
Proof.
  unfold new_datetime.
  repeat match goal with
    | |- context [negb ((?a <=? ?b) && (?c <=? ?e))] =>
        destruct (Z.leb_spec a b); destruct (Z.leb_spec c e);
        cbn [andb negb]; try discriminate
    end.
  intros [= <-]. repeat split; assumption.
Qed.

Lemma fromisoformat_in_range (s : string) (d : datetime) :
  fromisoformat s = ok d -> in_range (wall d) = true.
Proof.
  unfold fromisoformat.
  destruct (parse_isoformat (chars s)) as [[[[[y m] dd] [[[hh mi] ss] us]] off]|];
    [|discriminate].
  destruct (match off with
            | Some o => let* z := new_timezone o in ok (Some z)
            | None => ok None
            end) as [e|tz]; cbn [rbind]; [discriminate|].
  intros H. apply new_datetime_inv in H as [(Hy & Hm & Hd & Hhh & Hmi & Hss & Hus) ->].
  pose proof (ymd2ord_bounds y m dd Hy Hm Hd) as Hord.
  unfold in_range, MAX_WALL, MAXORDINAL, US_PER_DAY, US_PER_HOUR, US_PER_MINUTE,
    US_PER_SECOND in *. cbn [wall].
  apply andb_true_iff. split; apply Z.leb_le; lia.
Qed.

Lemma astimezone_utc_in_range (d r : datetime) :
  in_range (wall d) = true -> astimezone_utc d = ok r -> in_range (wall r) = true.
Proof.
  unfold astimezone_utc, dt_sub. intros Hd.
  destruct (tzinfo d) as [off|].
  - destruct (off =? 0); [intros [= <-]; exact Hd|].
    destruct (in_range (wall d - off)) eqn:E; cbn [rbind]; [|discriminate].
    intros [= <-]. exact E.
  - intros [= <-]. exact Hd.
Qed.

Lemma timeConvert_in_range (s : string) (r : datetime) :
  timeConvert s = ok r -> in_range (wall r) = true.
Proof.
  unfold timeConvert.
  destruct (fromisoformat _) as [e|d] eqn:Hd; cbn [rbind]; [discriminate|].
  apply fromisoformat_in_range in Hd.
  apply astimezone_utc_in_range. destruct (tzinfo d); exact Hd.
Qed.

(** A UTC datetime written by [isoformat] is read back as itself. *)
Lemma reparse_isoformat (w : Z) :
  in_range w = true ->
  timeConvert (isoformat {| wall := w; tzinfo := Some 0 |})
  = ok {| wall := w; tzinfo := Some 0 |}.
Proof.
  intros Hrange.
  unfold in_range in Hrange. apply andb_true_iff in Hrange as [Hlo Hhi].
  apply Z.leb_le in Hlo, Hhi.
  unfold isoformat. cbn [wall tzinfo]. cbv zeta.
  pose proof (time_of_day_fields w Hlo) as Htod. cbv zeta in Htod.
  destruct Htod as (Hhh & Hmi & Hss & Hus & Hsum).
  pose proof (ord2ymd_spec _ (ordinal_in_range w (conj Hlo Hhi))) as Hymd.
  destruct (ord2ymd (w / US_PER_DAY + 1)) as [[y m] d].
  destruct Hymd as (Hy & Hm & Hd & Hback).
  unfold timeConvert. rewrite iso_chars_not_Z.
  rewrite fromisoformat_iso_chars by assumption.
  cbn [rbind ok tzinfo]. unfold astimezone_utc. cbn [tzinfo Z.eqb].
  unfold ok. f_equal. f_equal. rewrite Hback. lia.
Qed.

(** X4: whatever string it is given, a datetime returned by [timeConvert]
    carries tzinfo UTC and lies in years 1 to 9999; writing it with
    [isoformat] and converting that text again returns the same datetime. *)
Theorem timeConvert_result_utc_and_stable (s : string) (r : datetime) :
  timeConvert s = ok r ->
  tzinfo r = Some 0 /\ in_range (wall r) = true /\ timeConvert (isoformat r) = ok r.
Proof.
  intros H. pose proof (timeConvert_utc s r H) as Htz.
  pose proof (timeConvert_in_range s r H) as Hrange.
  split; [exact Htz|]. split; [exact Hrange|].
  destruct r as [w tz]. cbn [wall tzinfo] in *. subst tz.
  apply reparse_isoformat. exact Hrange.
Qed.

Lemma timeConvert_result_utc_and_stable_witness :
  timeConvert (isoformat t_2026_01_17) = ok t_2026_01_17.
Proof.
  apply (timeConvert_result_utc_and_stable "2026-01-17T05:30:00+05:30" t_2026_01_17).
  reflexivity.
Defined.

(** X5: for a string that does not end in Z and that [fromisoformat] reads
    as d, [timeConvert] returns the UTC datetime of the same instant: the
    wall clock of d itself when d is naive, the wall clock less the offset
    when d carries one; when that instant falls outside years 1 to 9999 it
    raises OverflowError. *)
Theorem timeConvert_normalises_offset (s : string) (d : datetime) :
  endswith s "Z" = false -> fromisoformat s = ok d ->
  timeConvert s
  = (let off := default 0 (tzinfo d) in
     if in_range (wall d - off)
     then ok {| wall := wall d - off; tzinfo := Some 0 |}
     else raise (OverflowError "date value out of range")).
Proof.
  intros Hz Hd. pose proof (fromisoformat_in_range s d Hd) as Hrange.
  unfold timeConvert. rewrite Hz, Hd. cbn [rbind ok]. cbv zeta.
  destruct d as [w [off|]]; cbn [tzinfo wall from_option] in *; unfold id.
  - unfold astimezone_utc, dt_sub, replace_tzinfo, utc. cbn [tzinfo wall].
    destruct (Z.eqb_spec off 0) as [->|Hne].
    + rewrite Z.sub_0_r, Hrange. reflexivity.
    + destruct (in_range (w - off)); reflexivity.
  - unfold astimezone_utc, replace_tzinfo, utc. cbn [tzinfo wall].
    rewrite Z.sub_0_r, Hrange. reflexivity.
Qed.

Lemma timeConvert_normalises_offset_witness :
  timeConvert "2026-01-17T05:30:00+05:30" = ok t_2026_01_17 /\
  timeConvert "0001-01-01T00:30:00+01:00" = raise (OverflowError "date value out of range").
Proof.
  split.
  - exact (timeConvert_normalises_offset "2026-01-17T05:30:00+05:30"
             {| wall := 63904224600000000; tzinfo := Some 19800000000 |} eq_refl eq_refl).
  - exact (timeConvert_normalises_offset "0001-01-01T00:30:00+01:00"
             {| wall := 1800000000; tzinfo := Some 3600000000 |} eq_refl eq_refl).
Defined.

(** ** [split_entries]: skipped records, size and order *)

(** X6: a record with no "time_tag", with a timestamp [timeConvert] rejects,
    with no "flux", or with a flux [float] rejects is passed over without an
    error: the output is that of the input without the record. *)
Theorem split_entries_skips_unreadable
    (i : record) (before after : list record) (time_key flux_key : string) :
  i !! "time_tag" = None \/
  (exists tag, i !! "time_tag" = Some tag /\ succeeded (timeConvert (py_str tag)) = false) \/
  i !! "flux" = None \/
  (exists fv, i !! "flux" = Some fv /\ succeeded (py_float fv) = false) ->
  split_entries (before ++ i :: after) time_key flux_key
  = split_entries (before ++ after) time_key flux_key.
Proof.
  intros H.
  assert (Hfail : exists e, parse_entry i = inl e).
  { unfold parse_entry, getitem.
    destruct H as [H|[(tag & Htag & H)|[H|(fv & Hfv & H)]]].
    - rewrite H. eexists. reflexivity.
    - rewrite Htag. cbn [rbind ok].
      destruct (timeConvert (py_str tag)) as [e|t]; [|discriminate H].
      eexists. reflexivity.
    - destruct (i !! "time_tag") as [tag|]; [|eexists; reflexivity]. cbn [rbind ok].
      destruct (timeConvert (py_str tag)) as [e|t]; [eexists; reflexivity|].
      cbn [rbind]. rewrite H. eexists. reflexivity.
    - destruct (i !! "time_tag") as [tag|]; [|eexists; reflexivity]. cbn [rbind ok].
      destruct (timeConvert (py_str tag)) as [e|t]; [eexists; reflexivity|].
      cbn [rbind]. rewrite Hfv. cbn [rbind ok].
      destruct (py_float fv) as [e|f]; [|discriminate H].
      eexists. reflexivity. }
  destruct Hfail as [e He].
  rewrite !split_entries_eq, !readable_entries_app, readable_entries_cons, He.
  reflexivity.
Qed.

Lemma split_entries_skips_unreadable_witness :
  split_entries [record_plain; {[ "flux" := PFloat 1e-6 ]}] "time_tag" "flux"
  = split_entries [record_plain] "time_tag" "flux".
Proof.
  apply (split_entries_skips_unreadable {[ "flux" := PFloat 1e-6 ]} [record_plain] []).
  left. reflexivity.
Defined.

Lemma readable_entries_length (data : list record) :
  (length (readable_entries data) <= length data)%nat /\
  (length (readable_entries data) = length data <->
   Forall (fun i => succeeded (parse_entry i) = true) data).
Proof.
  induction data as [|i data [IHle IHeq]]; [split; [reflexivity|]; split; constructor|].
  rewrite readable_entries_cons. destruct (parse_entry i) as [e|x] eqn:E; simpl.
  - split; [lia|]. split; [lia|].
    intros H. apply Forall_cons in H as [H _]. rewrite E in H. discriminate H.
  - split; [lia|]. split.
    + intros H. constructor; [rewrite E; reflexivity|]. apply IHeq. lia.
    + intros H. apply Forall_cons in H as [_ H]. f_equal. apply IHeq, H.
Qed.

(** X7: [split_entries] returns at most one sample per input record, and
    exactly as many samples as records if and only if every record is
    readable. *)
Theorem split_entries_length (data : list record) (time_key flux_key : string) :
  exists out,
    split_entries data time_key flux_key = ok out /\
    (length out <= length data)%nat /\
    (length out = length data <-> Forall (fun i => succeeded (parse_entry i) = true) data).
Proof.
  exists (sort_by_instant (readable_entries data)).
  split; [apply split_entries_eq|].
  rewrite (Permutation_length (sort_by_instant_perm _)).
  apply readable_entries_length.
Qed.

Lemma sort_by_instant_sorted_id (l : list xrayEntry) :
  StronglySorted time_le l -> sort_by_instant l = l.
Proof.
  induction 1 as [|x l Hs IH Hx]; [reflexivity|].
  simpl. rewrite IH. destruct l as [|y l]; [reflexivity|].
  simpl. apply Forall_cons in Hx as [Hxy _]. unfold time_le in Hxy.
  destruct (Z.ltb_spec (instant y) (instant x)); [lia | reflexivity].
Qed.

(** X8: when the readable records already come in non-decreasing order of
    time, [split_entries] returns their samples in input order. *)
Theorem split_entries_keeps_sorted_input
    (data : list record) (time_key flux_key : string) :
  StronglySorted time_le (readable_entries data) ->
  split_entries data time_key flux_key = ok (readable_entries data).
Proof.
  intros H. rewrite split_entries_eq, (sort_by_instant_sorted_id _ H). reflexivity.
Qed.

Lemma split_entries_keeps_sorted_input_witness :
  split_entries [record_plain; record_unreadable_observed; record_plain] "time_tag" "flux"
  = ok [sample_2026; sample_2026].
Proof.
  apply (split_entries_keeps_sorted_input
           [record_plain; record_unreadable_observed; record_plain]).
  repeat constructor; unfold time_le; vm_compute; discriminate.
Defined.

Lemma instant_inj_of_NoDup (l : list xrayEntry) (x y : xrayEntry) :
  NoDup (map instant l) -> x ∈ l -> y ∈ l -> instant x = instant y -> x = y.
Proof.
  induction l as [|z l IH]; intros Hnd Hx Hy Heq; [inversion Hx|].
  cbn [map] in Hnd. apply NoDup_cons in Hnd as [Hz Hnd].
  apply elem_of_cons in Hx as [->|Hx]; apply elem_of_cons in Hy as [->|Hy].
  - reflexivity.
  - exfalso. apply Hz. rewrite Heq. apply list_elem_of_fmap. exists y. split; [reflexivity|exact Hy].
  - exfalso. apply Hz. rewrite <- Heq. apply list_elem_of_fmap. exists x. split; [reflexivity|exact Hx].
  - apply IH; assumption.
Qed.

(** Two sorted lists with the same elements and distinct timestamps are equal. *)
Lemma sorted_perm_unique (l1 l2 : list xrayEntry) :
  StronglySorted time_le l1 -> StronglySorted time_le l2 ->
  Permutation l1 l2 -> NoDup (map instant l1) -> l1 = l2.
Proof.
  intros H1. revert l2. induction H1 as [|x l1 Hs1 IH Hx]; intros l2 H2 Hp Hnd.
  - apply Permutation_nil in Hp. subst. reflexivity.
  - destruct H2 as [|y l2 Hs2 Hy].
    + symmetry in Hp. apply Permutation_nil in Hp. discriminate Hp.
    + assert (Hxy : x = y).
      { assert (Hy1 : y ∈ x :: l1) by (rewrite Hp; apply elem_of_cons; left; reflexivity).
        assert (Hx2 : x ∈ y :: l2) by (rewrite <- Hp; apply elem_of_cons; left; reflexivity).
        apply (instant_inj_of_NoDup (x :: l1)); [exact Hnd | | exact Hy1 |].
        - apply elem_of_cons. left. reflexivity.
        - apply Z.le_antisymm.
          + apply elem_of_cons in Hy1 as [->|Hy1]; [lia|].
            rewrite Forall_forall in Hx. apply (Hx y Hy1).
          + apply elem_of_cons in Hx2 as [->|Hx2]; [lia|].
            rewrite Forall_forall in Hy. apply (Hy x Hx2). }
      subst y. f_equal. apply IH; [exact Hs2 | exact (Permutation_cons_inv Hp) |].
      cbn [map] in Hnd. apply NoDup_cons in Hnd as [_ Hnd]. exact Hnd.
Qed.

Lemma readable_entries_perm (data data' : list record) :
  Permutation data data' -> Permutation (readable_entries data) (readable_entries data').
Proof.
  induction 1 as [|i l l' Hp IH|i j l|l l' l'' H1 IH1 H2 IH2].
  - reflexivity.
  - rewrite !readable_entries_cons. destruct (parse_entry i); [exact IH|].
    apply Permutation_cons; [reflexivity | exact IH].
  - rewrite !readable_entries_cons.
    destruct (parse_entry i), (parse_entry j); try reflexivity. apply perm_swap.
  - etransitivity; eassumption.
Qed.

(** X9: when the readable samples have pairwise distinct timestamps, the
    output of [split_entries] does not depend on the order of the input
    records. *)
Theorem split_entries_order_independent
    (data data' : list record) (time_key flux_key : string) :
  Permutation data data' ->
  NoDup (map instant (readable_entries data)) ->
  split_entries data time_key flux_key = split_entries data' time_key flux_key.
Proof.
  intros Hp Hnd. rewrite !split_entries_eq. f_equal.
  apply sorted_perm_unique.
  - apply sort_by_instant_sorted.
  - apply sort_by_instant_sorted.
  - rewrite !sort_by_instant_perm. apply readable_entries_perm, Hp.
  - rewrite (sort_by_instant_perm (readable_entries data)). exact Hnd.
Qed.

Lemma split_entries_order_independent_witness :
  split_entries [record_later; record_plain] "time_tag" "flux"
  = split_entries [record_plain; record_later] "time_tag" "flux".
Proof.
  apply (split_entries_order_independent [record_later; record_plain]
           [record_plain; record_later]).
  - apply perm_swap.
  - apply (bool_decide_unpack _). vm_compute. exact I.
Defined.

(** ** [getLastNHoras]: what the window keeps *)

(** The window as a filter, for any list of UTC samples, sorted or not. *)
Lemma getLastNHoras_filter
    (first : xrayEntry) (rest : list xrayEntry) (hours : pynum) (delta : Z) :
  let entries := first :: rest in
  let anchor := instant (last_entry entries first) in
  Forall is_utc entries ->
  timedelta_hours hours = ok delta ->
  in_range (anchor - delta) = true ->
  getLastNHoras entries hours
  = ok (filter (fun e => anchor - delta <= instant e /\ instant e <= anchor) entries).
Proof.
  intros entries anchor Hutc Hdelta Hrange.
  assert (Hlast : is_utc (last_entry entries first)).
  { rewrite Forall_forall in Hutc. apply Hutc. apply last_entry_in. }
  subst entries anchor. unfold getLastNHoras. cbv beta iota zeta.
  rewrite Hdelta. cbn [rbind ok]. unfold dt_sub.
  unfold instant in Hrange. rewrite Hrange. cbn [rbind ok].
  rewrite window_utc; [reflexivity | exact Hlast | exact Hlast | exact Hutc].
Qed.

Lemma filter_sorted (P : xrayEntry -> Prop) `{!forall e, Decision (P e)}
    (l : list xrayEntry) :
  StronglySorted time_le l -> StronglySorted time_le (filter P l).
Proof.
  induction 1 as [|x l Hs IH Hx]; [constructor|].
  rewrite filter_cons. destruct (decide (P x)); [|exact IH].
  constructor; [exact IH|].
  rewrite Forall_forall in *. intros y Hy.
  apply list_elem_of_filter in Hy as [_ Hy]. apply (Hx y Hy).
Qed.

Lemma last_filter (P : xrayEntry -> Prop) `{!forall e, Decision (P e)}
    (x dflt : xrayEntry) (l : list xrayEntry) :
  P (List.last (x :: l) dflt) ->
  List.last (filter P (x :: l)) dflt = List.last (x :: l) dflt.
Proof.
  revert x. induction l as [|y l IH]; intros x HP.
  - cbn [List.last] in *. rewrite filter_cons, decide_True by exact HP. reflexivity.
  - change (List.last (x :: y :: l) dflt) with (List.last (y :: l) dflt) in *.
    specialize (IH y HP).
    assert (Hne : filter P (y :: l) <> []).
    { intros E. apply (filter_nil_not_elem_of P (y :: l) _ E HP).
      apply (last_entry_in y dflt l). }
    rewrite (filter_cons _ x). destruct (decide (P x)); [|exact IH].
    destruct (filter P (y :: l)) as [|z f] eqn:Ef; [congruence|].
    exact IH.
Qed.

(** X10: for a non-empty list of UTC samples and a non-negative
    [timedelta] whose window start is representable, [getLastNHoras]
    returns a sublist of the input (same samples, same order, nothing
    added) that is not empty: it ends with the input's last sample.  UTC
    timestamps and sortedness of the input carry over to the result. *)
Theorem getLastNHoras_keeps_latest
    (first : xrayEntry) (rest : list xrayEntry) (hours : pynum) (delta : Z) :
  let entries := first :: rest in
  let anchor := instant (last_entry entries first) in
  Forall is_utc entries ->
  timedelta_hours hours = ok delta ->
  0 <= delta ->
  in_range (anchor - delta) = true ->
  exists out,
    getLastNHoras entries hours = ok out /\
    out `sublist_of` entries /\
    List.last out first = last_entry entries first /\
    last_entry entries first ∈ out /\
    Forall is_utc out /\
    (StronglySorted time_le entries -> StronglySorted time_le out).
Proof.
  intros entries anchor Hutc Hdelta Hpos Hrange.
  pose proof (getLastNHoras_filter first rest hours delta Hutc Hdelta Hrange) as H.
  fold entries anchor in H.
  eexists. split; [exact H|].
  set (P := fun e : xrayEntry => anchor - delta <= instant e /\ instant e <= anchor).
  assert (HP : P (last_entry entries first)) by (unfold P, anchor; lia).
  split; [apply sublist_filter|].
  split; [apply (last_filter P); exact HP|].
  split; [apply list_elem_of_filter; split; [exact HP | apply last_entry_in]|].
  split.
  - rewrite Forall_forall in *. intros e He.
    apply list_elem_of_filter in He as [_ He]. apply (Hutc e He).
  - apply filter_sorted.
Qed.

Lemma getLastNHoras_keeps_latest_witness :
  exists out,
    getLastNHoras [sample_2026; sample_later] (NInt 2) = ok out /\
    sample_later ∈ out.
Proof.
  destruct (getLastNHoras_keeps_latest sample_2026 [sample_later] (NInt 2) 7200000000)
    as (out & Hout & _ & _ & Hin & _).
  - repeat constructor.
  - reflexivity.
  - lia.
  - reflexivity.
  - exists out. split; [exact Hout | exact Hin].
Defined.

Lemma filter_none (P : xrayEntry -> Prop) `{!forall e, Decision (P e)}
    (l : list xrayEntry) :
  (forall e, ~ P e) -> filter P l = [].
Proof.
  intros Hno. induction l as [|e l IH]; [reflexivity|].
  rewrite filter_cons, IH. destruct (decide (P e)) as [HP|_]; [|reflexivity].
  destruct (Hno e HP).
Qed.

(** X11: for a non-empty list of UTC samples and a negative [timedelta]
    (negative hours) the window start lies after the last timestamp:
    [getLastNHoras] returns the empty list when that start is a datetime of
    years 1 to 9999 and raises OverflowError when it is not; with a zero
    [timedelta], the last timestamp being a datetime of years 1 to 9999, it
    returns exactly the samples that carry the last sample's timestamp. *)
Theorem getLastNHoras_negative_and_zero
    (first : xrayEntry) (rest : list xrayEntry) (hours : pynum) (delta : Z) :
  let entries := first :: rest in
  let anchor := instant (last_entry entries first) in
  Forall is_utc entries ->
  timedelta_hours hours = ok delta ->
  (delta < 0 ->
     getLastNHoras entries hours
     = if in_range (anchor - delta) then ok []
       else raise (OverflowError "date value out of range")) /\
  (delta = 0 -> in_range anchor = true ->
     getLastNHoras entries hours = ok (filter (fun e => instant e = anchor) entries)).
Proof.
  intros entries anchor Hutc Hdelta. split.
  - intros Hd. destruct (in_range (anchor - delta)) eqn:Hrange.
    + pose proof (getLastNHoras_filter first rest hours delta Hutc Hdelta Hrange) as H.
      fold entries anchor in H. rewrite H. f_equal.
      apply filter_none. intros e. lia.
    + exact (getLastNHoras_start_out_of_range first rest hours delta Hdelta Hrange).
  - intros -> Hanchor.
    assert (Hrange : in_range (anchor - 0) = true) by (rewrite Z.sub_0_r; exact Hanchor).
    pose proof (getLastNHoras_filter first rest hours 0 Hutc Hdelta Hrange) as H.
    fold entries anchor in H. rewrite H. f_equal.
    apply list_filter_iff. intros e. lia.
Qed.

Lemma getLastNHoras_negative_and_zero_witness :
  getLastNHoras [sample_2026; sample_later] (NInt (-1)) = ok [] /\
  getLastNHoras [sample_2026; sample_later] (NInt (-70000000))
  = raise (OverflowError "date value out of range") /\
  getLastNHoras [sample_2026; sample_later] (NFloat 0) = ok [sample_later].
Proof.
  split; [|split].
  - apply (proj1 (getLastNHoras_negative_and_zero sample_2026 [sample_later]
                    (NInt (-1)) (-3600000000) ltac:(repeat constructor) eq_refl)).
    lia.
  - apply (proj1 (getLastNHoras_negative_and_zero sample_2026 [sample_later]
                    (NInt (-70000000)) (-252000000000000000)
                    ltac:(repeat constructor) eq_refl)).
    lia.
  - apply (proj2 (getLastNHoras_negative_and_zero sample_2026 [sample_later]
                    (NFloat 0) 0 ltac:(repeat constructor) eq_refl)); reflexivity.
Defined.

(** X12: a longer look-back only adds samples: the window of the shorter
    [timedelta] is the window of the longer one cut at the shorter start, and
    so a sublist of it. *)
Theorem getLastNHoras_monotone
    (first : xrayEntry) (rest : list xrayEntry) (h1 h2 : pynum) (d1 d2 : Z) :
  let entries := first :: rest in
  let anchor := instant (last_entry entries first) in
  Forall is_utc entries ->
  timedelta_hours h1 = ok d1 -> timedelta_hours h2 = ok d2 -> d1 <= d2 ->
  in_range (anchor - d1) = true -> in_range (anchor - d2) = true ->
  exists out1 out2,
    getLastNHoras entries h1 = ok out1 /\
    getLastNHoras entries h2 = ok out2 /\
    out1 = filter (fun e => anchor - d1 <= instant e) out2 /\
    out1 `sublist_of` out2.
Proof.
  intros entries anchor Hutc H1 H2 Hle Hr1 Hr2.
  pose proof (getLastNHoras_filter first rest h1 d1 Hutc H1 Hr1) as Ho1.
  pose proof (getLastNHoras_filter first rest h2 d2 Hutc H2 Hr2) as Ho2.
  fold entries anchor in Ho1, Ho2.
  eexists. eexists.
  split; [exact Ho1|]. split; [exact Ho2|].
  assert (E : filter (fun e => anchor - d1 <= instant e /\ instant e <= anchor) entries
              = filter (fun e => anchor - d1 <= instant e)
                  (filter (fun e => anchor - d2 <= instant e /\ instant e <= anchor) entries)).
  { rewrite list_filter_filter. apply list_filter_iff. intros e. lia. }
  split; [exact E|]. rewrite E. apply sublist_filter.
Qed.

Lemma getLastNHoras_monotone_witness :
  exists out1 out2,
    getLastNHoras [sample_2026; sample_later] (NInt 2) = ok out1 /\
    getLastNHoras [sample_2026; sample_later] (NInt 3) = ok out2 /\
    out1 `sublist_of` out2.
Proof.
  destruct (getLastNHoras_monotone sample_2026 [sample_later] (NInt 2) (NInt 3)
              7200000000 10800000000)
    as (out1 & out2 & Ho1 & Ho2 & _ & Hsub).
  - repeat constructor.
  - reflexivity.
  - reflexivity.
  - lia.
  - reflexivity.
  - reflexivity.
  - exists out1, out2. repeat split; assumption.
Defined.

Lemma last_nonempty_default (x d1 d2 : xrayEntry) (l : list xrayEntry) :
  List.last (x :: l) d1 = List.last (x :: l) d2.
Proof.
  revert x. induction l as [|y l IH]; intros x; [reflexivity|]. apply (IH y).
Qed.

(** X13: windowing is idempotent for a non-negative [timedelta]: applied
    to its own result with the same hours, [getLastNHoras] returns that
    result again. *)
Theorem getLastNHoras_idempotent
    (first : xrayEntry) (rest : list xrayEntry) (hours : pynum) (delta : Z)
    (out : list xrayEntry) :
  let entries := first :: rest in
  let anchor := instant (last_entry entries first) in
  Forall is_utc entries ->
  timedelta_hours hours = ok delta ->
  0 <= delta ->
  in_range (anchor - delta) = true ->
  getLastNHoras entries hours = ok out ->
  getLastNHoras out hours = ok out.
Proof.
  intros entries anchor Hutc Hdelta Hpos Hrange Hout.
  pose proof (getLastNHoras_filter first rest hours delta Hutc Hdelta Hrange) as H.
  fold entries anchor in H. rewrite H in Hout. injection Hout as <-.
  set (P := fun e : xrayEntry => anchor - delta <= instant e /\ instant e <= anchor).
  assert (HP : P (last_entry entries first)) by (unfold P, anchor; lia).
  assert (Hin : last_entry entries first ∈ filter P entries)
    by (apply list_elem_of_filter; split; [exact HP | apply last_entry_in]).
  destruct (filter P entries) as [|o outs] eqn:Ef; [inversion Hin|].
  assert (Hlast : last_entry (o :: outs) o = last_entry entries first).
  { unfold last_entry in *. rewrite <- Ef. unfold entries in *.
    rewrite (last_filter P first o rest)
      by (rewrite (last_nonempty_default first o first rest); exact HP).
    apply last_nonempty_default. }
  assert (Hutc' : Forall is_utc (o :: outs)).
  { rewrite <- Ef. rewrite Forall_forall in *. intros e He.
    apply list_elem_of_filter in He as [_ He]. apply (Hutc e He). }
  rewrite (getLastNHoras_filter o outs hours delta Hutc' Hdelta);
    rewrite Hlast; fold anchor; [|exact Hrange].
  f_equal. fold P. rewrite <- Ef. apply list_filter_filter_l. tauto.
Qed.

Lemma getLastNHoras_idempotent_witness :
  getLastNHoras [sample_later] (NInt 2) = ok [sample_later].
Proof.
  apply (getLastNHoras_idempotent sample_2026 [sample_later] (NInt 2) 7200000000
           [sample_later]).
  - repeat constructor.
  - reflexivity.
  - lia.
  - reflexivity.
  - reflexivity.
Defined.

(** ** [summary]: the maximum, and the summary of a window *)

(** X14: the class [summary] reports under "max_class" is the class of a
    flux that occurs in the slice; when no flux is NaN, no sample's flux
    exceeds that flux. *)
Theorem summary_max_is_attained (first : xrayEntry) (rest : list xrayEntry) :
  exists d m e,
    summary (first :: rest) = ok d /\
    d !! "max_class" = Some (PStr (flare_class m)) /\
    e ∈ first :: rest /\ flux e = m /\
    (Forall (fun x => is_nan (flux x) = false) (first :: rest) ->
     forall x, x ∈ first :: rest -> (flux x <=? m)%float = true).
Proof.
  pose proof (py_max_in (flux first) (map flux rest)) as Hin.
  change (flux first :: map flux rest) with (map flux (first :: rest)) in Hin.
  apply list_elem_of_fmap in Hin as (e & He & Hin).
  eexists. exists (py_max (flux first) (map flux rest)), e.
  split; [reflexivity|].
  split; [cbn [list_to_map foldr]; unfold uncurry; simpl fst; simpl snd; by simplify_map_eq|].
  split; [exact Hin|]. split; [symmetry; exact He|].
  intros Hall x Hx. apply py_max_upper.
  - change (flux first :: map flux rest) with (map flux (first :: rest)).
    apply Forall_fmap. exact Hall.
  - change (flux first :: map flux rest) with (map flux (first :: rest)).
    apply list_elem_of_fmap. exists x. split; [reflexivity | exact Hx].
Qed.

(** X15: for a non-empty list of UTC samples and a non-negative
    [timedelta] whose window start is representable, [summary] of the
    window succeeds; its end time and current flux are those of the input's
    last sample and its count lies between 1 and the input's length. *)
Theorem summary_of_window
    (first : xrayEntry) (rest : list xrayEntry) (hours : pynum) (delta : Z) :
  let entries := first :: rest in
  let latest := last_entry entries first in
  Forall is_utc entries ->
  timedelta_hours hours = ok delta ->
  0 <= delta ->
  in_range (instant latest - delta) = true ->
  exists out d n,
    getLastNHoras entries hours = ok out /\
    summary out = ok d /\
    d !! "end_time_utc" = Some (PStr (isoformat (time_utc latest))) /\
    d !! "current_flux" = Some (PFloat (flux latest)) /\
    d !! "Amount of nodes(measurements)" = Some (PInt (Z.of_nat n)) /\
    (1 <= n <= length entries)%nat.
Proof.
  intros entries latest Hutc Hdelta Hpos Hrange.
  pose proof (getLastNHoras_filter first rest hours delta Hutc Hdelta Hrange) as H.
  fold entries in H. fold latest in H.
  set (P := fun e : xrayEntry =>
              instant latest - delta <= instant e /\ instant e <= instant latest) in H.
  assert (HP : P latest) by (unfold P; lia).
  assert (Hin : latest ∈ filter P entries)
    by (apply list_elem_of_filter; split; [exact HP | apply last_entry_in]).
  assert (Hlen := sublist_length _ _ (sublist_filter P entries)).
  destruct (filter P entries) as [|o outs] eqn:Ef; [inversion Hin|].
  assert (Hlast : last_entry (o :: outs) o = latest).
  { unfold last_entry in *. rewrite <- Ef. unfold entries, latest in *.
    rewrite (last_filter P first o rest)
      by (rewrite (last_nonempty_default first o first rest); exact HP).
    apply last_nonempty_default. }
  exists (o :: outs). eexists. exists (length (o :: outs)).
  split; [exact H|]. split; [reflexivity|].
  rewrite Hlast.
  cbn [list_to_map foldr]. unfold uncurry. simpl fst. simpl snd.
  split; [by simplify_map_eq|]. split; [by simplify_map_eq|].
  split; [by simplify_map_eq|]. simpl length in *. lia.
Qed.

Lemma summary_of_window_witness :
  exists out d,
    getLastNHoras [sample_2026; sample_later] (NInt 2) = ok out /\
    summary out = ok d /\
    d !! "current_flux" = Some (PFloat 2e-4).
Proof.
  destruct (summary_of_window sample_2026 [sample_later] (NInt 2) 7200000000)
    as (out & d & n & Hout & Hd & _ & Hcur & _).
  - repeat constructor.
  - reflexivity.
  - lia.
  - reflexivity.
  - exists out, d. repeat split; assumption.
Defined.

(** ** [filter_data] *)

Lemma lstrip_space_head (cs : list ascii) : head_not_space (lstrip_space cs).
Proof.
  induction cs as [|c cs IH]; [exact I|].
  simpl. destruct (py_isspace c) eqn:E; [exact IH | exact E].
Qed.

Lemma lstrip_space_id (cs : list ascii) : head_not_space cs -> lstrip_space cs = cs.
Proof. destruct cs as [|c cs]; [reflexivity|]. simpl. intros ->. reflexivity. Qed.

Lemma lstrip_space_suffix (cs : list ascii) : lstrip_space cs `suffix_of` cs.
Proof.
  induction cs as [|c cs IH]; [reflexivity|].
  simpl. destruct (py_isspace c); [|reflexivity].
  apply suffix_cons_r, IH.
Qed.

Lemma str_strip_idempotent (s : string) : str_strip (str_strip s) = str_strip s.
Proof.
  unfold str_strip. rewrite chars_text.
  set (a := lstrip_space (chars s)). set (b := lstrip_space (rev a)).
  assert (Ha : head_not_space a) by apply lstrip_space_head.
  assert (Hb : head_not_space b) by apply lstrip_space_head.
  assert (Hrb : head_not_space (rev b)).
  { destruct (lstrip_space_suffix (rev a)) as [k Hk]. fold b in Hk.
    assert (Ea : a = (rev b ++ rev k)%list).
    { rewrite <- (rev_involutive a), Hk, rev_app_distr. reflexivity. }
    destruct (rev b) as [|c t]; [exact I|]. rewrite Ea in Ha. exact Ha. }
  rewrite (lstrip_space_id (rev b) Hrb), rev_involutive, (lstrip_space_id b Hb).
  reflexivity.
Qed.

(** X17: the band argument is compared as given, the record's energy after
    stripping: a band with leading or trailing white space selects no row. *)
Theorem filter_data_unstripped_band (rows : list record) (band : string) :
  str_strip band <> band -> filter_data rows band = [].
Proof.
  intros Hne. unfold filter_data.
  induction rows as [|i rows IH]; [reflexivity|].
  rewrite filter_cons, IH. case_decide as E; [|reflexivity].
  exfalso. apply Hne. rewrite <- E. apply str_strip_idempotent.
Qed.

Lemma filter_data_unstripped_band_witness :
  filter_data [record_later] " 0.1-0.8nm" = [].
Proof. apply filter_data_unstripped_band. vm_compute. discriminate. Defined.

(** X18: a row without an "energy" key raises nothing: it is dropped for
    every non-empty band, and kept when the band is the empty string. *)
Theorem filter_data_missing_energy
    (i : record) (before after : list record) (band : string) :
  i !! "energy" = None ->
  (band <> "" -> filter_data (before ++ i :: after) band = filter_data (before ++ after) band) /\
  (band = "" ->
     filter_data (before ++ i :: after) band
     = (filter_data before band ++ i :: filter_data after band)%list).
Proof.
  intros Hnone. unfold filter_data.
  assert (E : str_strip (py_str (dict_get i "energy" (PStr ""))) = "").
  { unfold dict_get. rewrite Hnone. reflexivity. }
  split; intros Hb; rewrite !filter_app, filter_cons; case_decide as D; try reflexivity.
  - rewrite E in D. congruence.
  - rewrite E in D. congruence.
Qed.

Lemma filter_data_missing_energy_witness :
  filter_data [record_later; record_plain] "0.1-0.8nm" = filter_data [record_later] "0.1-0.8nm".
Proof.
  apply (proj1 (filter_data_missing_energy record_plain [record_later] [] "0.1-0.8nm" eq_refl)).
  discriminate.
Defined.

(** ** The script body *)

Lemma parse_entry_in_range (i : record) (e : xrayEntry) :
  parse_entry i = ok e -> in_range (instant e) = true.
Proof.
  unfold parse_entry.
  destruct (getitem i "time_tag") as [?|tag]; cbn [rbind]; [discriminate|].
  destruct (timeConvert (py_str tag)) as [?|t] eqn:Ht; cbn [rbind]; [discriminate|].
  destruct (getitem i "flux") as [?|fv]; cbn [rbind]; [discriminate|].
  destruct (py_float fv) as [?|f]; cbn [rbind]; [discriminate|].
  destruct (py_float _) as [?|o]; cbn [rbind]; [discriminate|].
  intros [= <-]. exact (timeConvert_in_range _ _ Ht).
Qed.

Lemma readable_entries_in_range (data : list record) :
  Forall (fun e => in_range (instant e) = true) (readable_entries data).
Proof.
  induction data as [|i data IH]; [constructor|].
  rewrite readable_entries_cons. destruct (parse_entry i) as [?|e] eqn:He; [exact IH|].
  constructor; [exact (parse_entry_in_range _ _ He) | exact IH].
Qed.

(** X19: how the script body ends.  With no row of band "0.1-0.8nm" it
    raises its RuntimeError.  With rows of the band of which none is
    readable, [summary] raises ValueError "No entries available.".  When the
    latest sample lies less than two hours after 0001-01-01T00:00 UTC,
    [getLastNHoras] raises OverflowError.  In every other case it completes:
    the window is the closed two-hour interval ending at the latest sample
    and contains it, and the summary, the payload's entry list and the CSV
    text are all computed from that window.  [split_entries] never fails. *)
Theorem script_body_outcomes (rows : list record) :
  match filter_data rows "0.1-0.8nm" with
  | [] =>
      script_body rows = inl (RuntimeError "No energy value found for energy='0.1-0.8nm'")
  | band =>
      match split_entries band "time_tag" "flux" with
      | inl _ => False
      | inr [] => script_body rows = inl (Uncaught (ValueError "No entries available."))
      | inr (first :: rest) =>
          let latest := last_entry (first :: rest) first in
          if 2 * US_PER_HOUR <=? instant latest then
            exists out,
              script_body rows = inr out /\
              out_window out
              = filter (fun e => instant latest - 2 * US_PER_HOUR <= instant e
                                 /\ instant e <= instant latest) (first :: rest) /\
              latest ∈ out_window out /\
              summary (out_window out) = ok (two_hour_summary (out_payload out)) /\
              entries_twoHour (out_payload out) = map payload_entry (out_window out) /\
              out_csv out = save_file (out_window out)
          else script_body rows = inl (Uncaught (OverflowError "date value out of range"))
      end
  end.
Proof.
  unfold script_body.
  destruct (filter_data rows "0.1-0.8nm") as [|b band] eqn:Hband; [reflexivity|].
  rewrite split_entries_eq. cbn [rbind ok].
  pose proof (sort_by_instant_utc _ (readable_entries_utc (b :: band))) as Hutc.
  pose proof (readable_entries_in_range (b :: band)) as Hrange.
  rewrite <- (sort_by_instant_perm (readable_entries (b :: band))) in Hrange.
  destruct (sort_by_instant (readable_entries (b :: band))) as [|first rest];
    [reflexivity|].
  cbv zeta.
  set (latest := last_entry (first :: rest) first).
  assert (Hlatest : in_range (instant latest) = true).
  { rewrite Forall_forall in Hrange. apply Hrange. apply last_entry_in. }
  assert (Hlast_utc : is_utc latest).
  { rewrite Forall_forall in Hutc. apply Hutc. apply last_entry_in. }
  unfold in_range in Hlatest. apply andb_true_iff in Hlatest as [Hlo Hhi].
  apply Z.leb_le in Hlo, Hhi.
  destruct (Z.leb_spec (2 * US_PER_HOUR) (instant latest)) as [Hge|Hlt].
  - assert (Hr : in_range (instant latest - 2 * US_PER_HOUR) = true).
    { unfold in_range. apply andb_true_iff.
      unfold US_PER_HOUR, US_PER_SECOND in *. split; apply Z.leb_le; lia. }
    pose proof (getLastNHoras_filter first rest (NInt 2) (2 * US_PER_HOUR) Hutc
                  eq_refl Hr) as Hw.
    fold latest in Hw. rewrite Hw. cbn [rbind ok].
    set (P := fun e : xrayEntry => instant latest - 2 * US_PER_HOUR <= instant e
                                   /\ instant e <= instant latest).
    assert (Hin : latest ∈ filter P (first :: rest)).
    { apply list_elem_of_filter. split; [|apply last_entry_in].
      unfold P, US_PER_HOUR, US_PER_SECOND. lia. }
    destruct (filter P (first :: rest)) as [|o outs] eqn:Ef; [inversion Hin|].
    cbn [summary rbind ok]. eexists. split; [reflexivity|].
    cbn [out_window out_payload out_csv two_hour_summary entries_twoHour].
    repeat split; try reflexivity. exact Hin.
  - unfold getLastNHoras. cbv beta iota zeta. fold latest.
    change (timedelta_hours (NInt 2)) with (ok (2 * US_PER_HOUR)). cbn [rbind ok].
    unfold dt_sub, in_range. fold (instant latest).
    destruct (Z.leb_spec 0 (instant latest - 2 * US_PER_HOUR)) as [H0|H0]; [lia|].
    reflexivity.
Qed.

(** ** [save_file]: the shape of the text written *)

Lemma count_char_append (c : ascii) (a b : string) :
  count_char c (a +:+ b) = (count_char c a + count_char c b)%nat.
Proof. unfold count_char. rewrite chars_append, filter_app, length_app. reflexivity. Qed.

Lemma plain_append (a b : string) : plain a -> plain b -> plain (a +:+ b).
Proof.
  unfold plain. rewrite chars_append, forallb_app. intros -> ->. reflexivity.
Qed.

Lemma plain_text (l : list ascii) : forallb plain_char l = true -> plain (text l).
Proof. unfold plain. rewrite chars_text. trivial. Qed.

Lemma plain_count (s : string) :
  plain s -> count_char comma s = 0%nat /\ count_char line_end s = 0%nat.
Proof.
  unfold plain, count_char. induction (chars s) as [|c l IH]; [split; reflexivity|].
  cbn [forallb]. intros H. apply andb_true_iff in H as [Hc Hl].
  destruct (IH Hl) as [IH1 IH2]. unfold plain_char in Hc.
  apply andb_true_iff in Hc as [H1 H2].
  apply negb_true_iff, Ascii.eqb_neq in H1, H2.
  rewrite !filter_cons, !decide_False by assumption. split; assumption.
Qed.

Lemma digit_char_plain (n : Z) : plain_char (digit_char (n mod 10)) = true.
Proof.
  pose proof (Z.mod_pos_bound n 10 ltac:(lia)) as Hd.
  assert (H : n mod 10 = 0 \/ n mod 10 = 1 \/ n mod 10 = 2 \/ n mod 10 = 3
              \/ n mod 10 = 4 \/ n mod 10 = 5 \/ n mod 10 = 6 \/ n mod 10 = 7
              \/ n mod 10 = 8 \/ n mod 10 = 9) by lia.
  repeat destruct H as [->|H]; try reflexivity. rewrite H. reflexivity.
Qed.

Lemma zfill_chars_plain (w : nat) (n : Z) : forallb plain_char (zfill_chars w n) = true.
Proof.
  revert n. induction w as [|w IH]; intros n; [reflexivity|].
  cbn [zfill_chars]. rewrite forallb_app, IH. cbn [forallb].
  rewrite digit_char_plain. reflexivity.
Qed.

Lemma decimal_go_plain (fuel : nat) (n : Z) (acc : string) :
  plain acc -> plain (decimal_go fuel n acc).
Proof.
  revert n acc. induction fuel as [|f IH]; intros n acc Hacc; [exact Hacc|].
  cbn [decimal_go].
  assert (Hacc' : plain (String (digit_char (n mod 10)) acc)).
  { unfold plain, chars in *. cbn [list_ascii_of_string forallb].
    rewrite digit_char_plain. exact Hacc. }
  destruct (n <? 10); [exact Hacc' | apply IH, Hacc'].
Qed.

Lemma decimal_plain (n : Z) : plain (decimal n).
Proof. apply decimal_go_plain. reflexivity. Qed.

Ltac plain_parts :=
  repeat first
    [ apply plain_append
    | apply decimal_plain
    | apply plain_text, zfill_chars_plain
    | reflexivity
    | match goal with |- plain (if ?b then _ else _) => destruct b end ].

Lemma format_2f_plain (x : float) : plain (format_2f x).
Proof. unfold format_2f, zfill. destruct (Prim2SF x) as [[]|[]| |s m e]; plain_parts. Qed.

Lemma format_10e_plain (x : float) : plain (format_10e x).
Proof.
  unfold format_10e. destruct (Prim2SF x) as [[]|[]| |s m e]; try reflexivity.
  cbv zeta. destruct (_ =? 10 ^ 11); plain_parts.
Qed.

Lemma flare_class_eq (x : float) :
  flare_class x
  = if (x <=? 0)%float then "A0.00"
    else if (1e-8 <=? x)%float then "1e-08" +:+ format_2f (x / 1e-8)%float
    else "A" +:+ format_2f (x / 1e-8)%float.
Proof.
  unfold flare_class. cbn [FLARE_OFFSETS flare_scan].
  destruct (x <=? 0)%float; [reflexivity|].
  destruct (1e-8 <=? x)%float eqn:HA; [rewrite repr_1e_8; reflexivity|].
  rewrite !(not_reached_above x) by (exact HA || reflexivity). reflexivity.
Qed.

Lemma flare_class_plain (x : float) : plain (flare_class x).
Proof.
  rewrite flare_class_eq.
  destruct (x <=? 0)%float; [reflexivity|].
  destruct (1e-8 <=? x)%float; (apply plain_append; [reflexivity | apply format_2f_plain]).
Qed.

Lemma format_offset_plain (tz : option Z) : forallb plain_char (format_offset tz) = true.
Proof.
  destruct tz as [off|]; [|reflexivity]. unfold format_offset. cbv zeta.
  repeat match goal with |- context [if ?b then _ else _] => destruct b end;
    rewrite ?forallb_app, ?zfill_chars_plain; reflexivity.
Qed.

Lemma isoformat_plain (d : datetime) : plain (isoformat d).
Proof.
  unfold isoformat. cbv zeta. destruct (ord2ymd _) as [[y m] dd].
  apply plain_text. unfold iso_chars.
  repeat match goal with |- context [if ?b then _ else _] => destruct b end;
    rewrite ?forallb_app, ?zfill_chars_plain, ?format_offset_plain; reflexivity.
Qed.

Lemma csv_row_counts (i : xrayEntry) :
  count_char comma (csv_row i) = 3%nat /\ count_char line_end (csv_row i) = 1%nat.
Proof.
  unfold csv_row. rewrite !count_char_append.
  destruct (plain_count _ (isoformat_plain (time_utc i))) as [-> ->].
  destruct (plain_count _ (format_10e_plain (flux i))) as [-> ->].
  destruct (plain_count _ (format_10e_plain (observed_flux i))) as [-> ->].
  destruct (plain_count _ (flare_class_plain (flux i))) as [-> ->].
  split; reflexivity.
Qed.

Lemma save_file_snoc (entries : list xrayEntry) (i : xrayEntry) :
  save_file (entries ++ [i]) = save_file entries +:+ csv_row i.
Proof. unfold save_file. rewrite fold_left_app. reflexivity. Qed.

Lemma append_empty_r (s : string) : s +:+ "" = s.
Proof.
  induction s as [|c s IH]; [reflexivity|].
  change (String c (s +:+ "") = String c s). f_equal. exact IH.
Qed.

Lemma append_assoc (a b c : string) : (a +:+ b) +:+ c = a +:+ (b +:+ c).
Proof.
  induction a as [|x a IH]; [reflexivity|].
  change (String x ((a +:+ b) +:+ c) = String x (a +:+ (b +:+ c))). f_equal. exact IH.
Qed.

Lemma save_file_from (acc : string) (entries : list xrayEntry) :
  fold_left (fun written i => written +:+ csv_row i) entries acc
  = acc +:+ fold_left (fun written i => written +:+ csv_row i) entries "".
Proof.
  revert acc. induction entries as [|i l IH]; intros acc; cbn [fold_left].
  - symmetry. apply append_empty_r.
  - rewrite (IH (acc +:+ csv_row i)), (IH ("" +:+ csv_row i)).
    rewrite append_assoc. reflexivity.
Qed.

(** X20: the text [save_file] writes holds the header's four commas and
    three more per sample, and exactly one line end per sample: each row has
    four fields under a header of five names, no field contains a comma or a
    line end, and the header is not followed by a line end, so that the first
    sample's timestamp continues the header line. *)
Theorem save_file_shape (entries : list xrayEntry) :
  count_char comma (save_file entries) = (4 + 3 * length entries)%nat /\
  count_char line_end (save_file entries) = length entries /\
  (forall i, i ∈ entries ->
     count_char comma (csv_row i) = 3%nat /\ count_char line_end (csv_row i) = 1%nat) /\
  (forall first rest, entries = first :: rest ->
     exists more, save_file entries = CSV_HEADER +:+ isoformat (time_utc first) +:+ more).
Proof.
  split; [|split; [|split]].
  - induction entries as [|i l IH] using rev_ind; [reflexivity|].
    rewrite save_file_snoc, count_char_append, IH, (proj1 (csv_row_counts i)), length_app.
    simpl length. lia.
  - induction entries as [|i l IH] using rev_ind; [reflexivity|].
    rewrite save_file_snoc, count_char_append, IH, (proj2 (csv_row_counts i)), length_app.
    simpl length. lia.
  - intros i _. apply csv_row_counts.
  - intros first rest ->. unfold save_file. cbn [fold_left].
    rewrite save_file_from. unfold csv_row.
    eexists. cbn [String.append]. rewrite !append_assoc. reflexivity.
Qed.

(** ** Exported timestamps read back *)

(** X21: for every input, each sample [split_entries] returns has a
    timestamp that survives the export: its CSV row begins with the
    [isoformat] text of the timestamp followed by a comma, and [timeConvert]
    of that text is the timestamp again. *)
Theorem exported_timestamps_read_back
    (data : list record) (time_key flux_key : string) :
  exists out,
    split_entries data time_key flux_key = ok out /\
    Forall (fun e =>
              timeConvert (isoformat (time_utc e)) = ok (time_utc e) /\
              exists more, csv_row e = isoformat (time_utc e) +:+ "," +:+ more) out.
Proof.
  exists (sort_by_instant (readable_entries data)).
  split; [apply split_entries_eq|].
  pose proof (sort_by_instant_utc _ (readable_entries_utc data)) as Hutc.
  pose proof (readable_entries_in_range data) as Hrange.
  rewrite <- (sort_by_instant_perm (readable_entries data)) in Hrange.
  rewrite Forall_forall in *. intros e He. split.
  - specialize (Hutc e He). specialize (Hrange e He).
    unfold is_utc, instant in *. destruct (time_utc e) as [w tz].
    cbn [wall tzinfo] in *. subst tz. apply reparse_isoformat. exact Hrange.
  - unfold csv_row. eexists. reflexivity.
Qed.

(** ** The statements above at concrete inputs *)

Lemma split_entries_length_witness :
  exists out,
    split_entries [record_plain; record_unreadable_observed] "time_tag" "flux" = ok out /\
    length out <> 2%nat.
Proof.
  destruct (split_entries_length [record_plain; record_unreadable_observed]
              "time_tag" "flux") as (out & Hout & _ & Hiff).
  exists out. split; [exact Hout|].
  intros Hlen. apply Hiff in Hlen.
  apply Forall_cons in Hlen as [_ Hlen]. apply Forall_cons in Hlen as [Hbad _].
  vm_compute in Hbad. discriminate Hbad.
Defined.

Lemma summary_max_is_attained_witness :
  exists d m,
    summary [sample_2026; sample_X2] = ok d /\
    d !! "max_class" = Some (PStr (flare_class m)) /\
    (flux sample_2026 <=? m)%float = true.
Proof.
  destruct (summary_max_is_attained sample_2026 [sample_X2])
    as (d & m & e & Hd & Hclass & _ & _ & Hup).
  exists d, m. split; [exact Hd|]. split; [exact Hclass|].
  apply Hup.
  - repeat constructor.
  - apply elem_of_cons. left. reflexivity.
Defined.

Lemma save_file_shape_witness :
  count_char comma (csv_row sample_2026) = 3%nat /\
  exists more,
    save_file [sample_2026] = CSV_HEADER +:+ isoformat (time_utc sample_2026) +:+ more.
Proof.
  destruct (save_file_shape [sample_2026]) as (_ & _ & Hrow & Hfirst). split.
  - apply (Hrow sample_2026). apply elem_of_cons. left. reflexivity.
  - apply (Hfirst sample_2026 []). reflexivity.
Defined.
